(** * pyhmmer.daemon: the client of the HMMER daemon

    A shallow embedding of [src/pyhmmer/daemon.pyx] (class [Client]) and
    the properties of its wire protocol: request encoding, exact-length
    reads, status negotiation and the reconstruction of a [TopHits]
    collection from the payload sent back by the server.

    Conventions.
    - C integers are [Z] with their wrap-around written out ([size_t],
      [uint32_t]); [double] fields are carried as their 64-bit patterns,
      since the client only copies them.
    - Python [bytes]/[bytearray] are [list byte]; Python [str] built by
      the client is [string]; text decoded from the server is a list of
      code points.
    - The socket is explicit state: the fragments the peer still has to
      deliver (the end of the list is the peer closing the connection)
      and the log of the writes made by the client.  Writes are assumed
      to be accepted by the transport.
    - The making of a Python buffer ([bytearray(n)], the [bytes] object
      [recv(n)] fills) raises [OverflowError] when [n] is no
      [Py_ssize_t] and [MemoryError] when the interpreter does not get
      the memory; whether it gets it is left to the collaborators.
    - Functions of the HMMER and Easel C libraries (the deserializers,
      [eslOK], the serialized size of the status header) and the other
      classes of pyhmmer are not part of [daemon.pyx]; the client is
      written over the class [Collaborators] that gathers them.
    - The parts of the C structures the client never looks into are
      carried as their memory image. *)

From Stdlib Require Import ZArith String Ascii DecimalString Bool Lia List.
Import ListNotations.

Local Open Scope Z_scope.

(** ** Bytes and text *)

Abbreviation byte := Byte.byte.

Definition bytes := list byte.

(** A Python [str] decoded from network data: a list of code points. *)
Definition unicode := list N.

(** [b"..."] literals and [str.encode("ascii")]: a character outside of
    the 7-bit range makes the encoder raise. *)
Definition ascii_literal (s : string) : bytes := list_byte_of_string s.

Fixpoint encode_ascii (s : string) : option bytes :=
  match s with
  | EmptyString => Some []
  | String c s' =>
      if (N_of_ascii c <? 128)%N
      then option_map (cons (byte_of_ascii c)) (encode_ascii s')
      else None
  end.

(** Rendering of an integer by [format]/f-strings. *)
Definition str_of_int (z : Z) : string := NilZero.string_of_int (Z.to_int z).

Definition newline : string := String (ascii_of_nat 10) EmptyString.

(** ** C integer types *)

Definition size_t (x : Z) : Z := x mod 2 ^ 64.
Definition uint64_t (x : Z) : Z := x mod 2 ^ 64.
Definition uint32_t (x : Z) : Z := x mod 2 ^ 32.

(** The largest [Py_ssize_t]: the length of a Python buffer is one. *)
Definition PY_SSIZE_T_MAX : Z := 2 ^ 63 - 1.

(** ** Python values found in the [ranges] argument *)

Inductive pyobj :=
| PyInt (z : Z)
| PyBool (b : bool)
| PyStr (s : string).

(** [isinstance(x, int)]: [bool] is a subclass of [int]. *)
Definition isinstance_int (x : pyobj) : bool :=
  match x with
  | PyInt _ | PyBool _ => true
  | PyStr _ => false
  end.

(** What a [{}] replacement field renders. *)
Definition format_obj (x : pyobj) : string :=
  match x with
  | PyInt z => str_of_int z
  | PyBool true => "True"
  | PyBool false => "False"
  | PyStr s => s
  end.

Definition pytuple := list pyobj.

(** ** Exceptions *)

Inductive exn :=
| ValueError (msg : string)
| TypeError (msg : string)
| IndexError (msg : string)
| EOFError (msg : string)
| UnicodeEncodeError
| UnexpectedError (code : Z) (function : string)
| AllocationError (ctype : string) (itemsize : Z) (count : Z)
| ServerError (code : Z) (msg : unicode)
| CollaboratorError (msg : string)
| OverflowError
| MemoryError.

(** ** The transport *)

(** A blocking read returns at least one byte unless the peer has closed
    the connection, so a delivered fragment is never empty. *)
Record fragment := Frag { frag_first : byte; frag_more : bytes }.

Definition frag_bytes (f : fragment) : bytes := frag_first f :: frag_more f.

Definition stream (fs : list fragment) : bytes := List.concat (map frag_bytes fs).

(** The part of a fragment left in the kernel buffer after a read. *)
Definition requeue (left : bytes) (rest : list fragment) : list fragment :=
  match left with
  | [] => rest
  | b :: more => Frag b more :: rest
  end.

(** [take cap fs]: what one [recv] with room for [cap] bytes returns, and
    what stays pending. *)
Definition take (cap : nat) (fs : list fragment) : bytes * list fragment :=
  match fs with
  | [] => ([], [])
  | f :: rest =>
      (firstn cap (frag_bytes f), requeue (skipn cap (frag_bytes f)) rest)
  end.

Record World := mkWorld {
  sock_in : list fragment;     (* what the peer delivers, then closes *)
  sock_out : list bytes;       (* one entry per write on the socket *)
  warned : list string         (* messages given to [warnings.warn] *)
}.

(** ** Computations of the client *)

Inductive outcome (A : Type) :=
| Return (a : A)
| Raise (e : exn)
| Undefined          (* undefined behaviour of the C code *)
| OutOfFuel.         (* a loop of the model ran out of iterations *)

Arguments Return {A} a.
Arguments Raise {A} e.
Arguments Undefined {A}.
Arguments OutOfFuel {A}.

Definition M (A : Type) : Type := World -> outcome A * World.

Definition ret {A} (a : A) : M A := fun w => (Return a, w).

Definition raise {A} (e : exn) : M A := fun w => (Raise e, w).

Definition undefined {A} : M A := fun w => (Undefined, w).

Definition bind {A B} (m : M A) (k : A -> M B) : M B :=
  fun w =>
    match m w with
    | (Return a, w') => k a w'
    | (Raise e, w') => (Raise e, w')
    | (Undefined, w') => (Undefined, w')
    | (OutOfFuel, w') => (OutOfFuel, w')
    end.

Declare Scope client_scope.
Delimit Scope client_scope with client.
Notation "x <- m ;; k" := (bind m (fun x => k))
  (at level 61, m at next level, right associativity) : client_scope.
Notation "m ;; k" := (bind m (fun _ => k))
  (at level 61, right associativity) : client_scope.
Local Open Scope client_scope.

(** [socket.sendall(data)] *)
Definition sendall (data : bytes) : M unit :=
  fun w => (Return tt, mkWorld (sock_in w) (sock_out w ++ [data]) (warned w)).

(** [warnings.warn(message)]: the message is recorded; no filter of the
    interpreter turns warnings into exceptions. *)
Definition warn (message : string) : M unit :=
  fun w => (Return tt, mkWorld (sock_in w) (sock_out w) (warned w ++ [message])).

(** ** [Client._recvall] *)

(** A [memoryview] over the receive buffer: a window of the buffer. *)
Record memoryview := mkView { view_start : nat; view_len : nat }.

(** [view[k:]] *)
Definition view_from (v : memoryview) (k : nat) : memoryview :=
  mkView (view_start v + Nat.min k (view_len v)) (view_len v - k).

(** Stores [data] in the buffer, at position [at_]. *)
Definition blit (buffer : bytes) (at_ : nat) (data : bytes) : bytes :=
  firstn at_ buffer ++ data ++ skipn (at_ + length data) buffer.

(** [socket.recv_into(view)]: fills the window with the bytes of one
    read, and returns their number with the buffer the view aliases. *)
Definition recv_into (buffer : bytes) (view : memoryview) : M (Z * bytes) :=
  fun w =>
    let '(data, rest) := take (view_len view) (sock_in w) in
    (Return (Z.of_nat (length data), blit buffer (view_start view) data),
     mkWorld rest (sock_out w) (warned w)).

Definition eof_message (message_size received : Z) : string :=
  ("Expected message of size " ++ str_of_int message_size
   ++ ", received " ++ str_of_int received)%string.

(** The [while received < message_size] loop (lines 151-156). *)
Fixpoint recvall_loop (fuel : nat) (message_size : Z) (buffer : bytes)
    (view : memoryview) (received : Z) : M bytes :=
  if received <? message_size then
    match fuel with
    | O => fun w => (OutOfFuel, w)
    | S fuel' =>
        r <- recv_into buffer view ;;
        let '(recv_size, buffer) := r in
        if recv_size =? 0 then
          raise (EOFError (eof_message message_size received))
        else
          recvall_loop fuel' message_size buffer
            (view_from view (Z.to_nat recv_size))
            (size_t (received + recv_size))
    end
  else ret buffer.

(** ** Validation of [ranges] and the request line *)

Inductive p7_pipemodes_e := p7_SEARCH_SEQS | p7_SCAN_MODELS.

(** [isinstance(r[0], int) and isinstance(r[1], int)]; both items exist
    where this is evaluated, [len(r) == 2] having been checked. *)
Definition int_bounds (r : pytuple) : bool :=
  match r with
  | a :: b :: _ => isinstance_int a && isinstance_int b
  | _ => false
  end.

(** The [if]/[elif]/[elif] chain that checks [ranges] (lines 196-202).
    The test for [None] guards the first condition only: the second one
    iterates over [ranges] whatever its value. *)
Definition check_ranges (ranges : option (list pytuple)) : M unit :=
  if match ranges with
     | Some rs => (length rs <? 1)%nat
     | None => false
     end
  then raise (ValueError "At least one range is needed for the `ranges` argument")
  else
    match ranges with
    | None => raise (TypeError "'NoneType' object is not iterable")
    | Some rs =>
        if existsb (fun r => negb (length r =? 2)%nat) rs
        then raise (ValueError "`ranges` must be a list of two-element tuples")
        else if negb (forallb int_bounds rs)
        then raise (TypeError "`ranges` must be a list where elements are 2-tuples of int")
        else ret tt
    end.

(** ["{}..{}".format( *r )]; the second case is never met after the
    validation, which has checked the length of [r]. *)
Definition format_range (r : pytuple) : outcome string :=
  match r with
  | a :: b :: _ => Return (format_obj a ++ ".." ++ format_obj b)%string
  | _ => Raise (IndexError "Replacement index out of range for positional args tuple")
  end.

Fixpoint format_ranges (rs : list pytuple) : outcome (list string) :=
  match rs with
  | [] => Return []
  | r :: rs' =>
      match format_range r with
      | Return s =>
          match format_ranges rs' with
          | Return l => Return (s :: l)
          | other => other
          end
      | Raise e => Raise e
      | Undefined => Undefined
      | OutOfFuel => OutOfFuel
      end
  end.

(** The option string after the [--seqdb_ranges] clause was put in front
    of it, for a sequence database search with ranges (lines 211-216). *)
Definition with_ranges (mode : p7_pipemodes_e) (ranges : option (list pytuple))
    (options : string) : outcome string :=
  match mode, ranges with
  | p7_SEARCH_SEQS, Some rs =>
      match format_ranges rs with
      | Return l =>
          Return ("--seqdb_ranges " ++ String.concat "," l ++ " " ++ options)%string
      | Raise e => Raise e
      | Undefined => Undefined
      | OutOfFuel => OutOfFuel
      end
  | _, _ => Return options
  end.

(** The text of the request line, before it is encoded (lines 217 and
    219). *)
Definition request_line (mode : p7_pipemodes_e) (db : Z)
    (ranges : option (list pytuple)) (options : string) : outcome string :=
  match with_ranges mode ranges options with
  | Return options =>
      match mode with
      | p7_SEARCH_SEQS =>
          Return ("@--seqdb " ++ str_of_int db ++ " " ++ options ++ newline)%string
      | p7_SCAN_MODELS =>
          Return ("@--hmmdb " ++ str_of_int db ++ " " ++ options ++ newline)%string
      end
  | other => other
  end.

Definition lift {A} (o : outcome A) : M A := fun w => (o, w).

(** [self.socket.sendall(f"...".encode("ascii"))] *)
Definition send_request_line (mode : p7_pipemodes_e) (db : Z)
    (ranges : option (list pytuple)) (options : string) : M unit :=
  line <- lift (request_line mode db ranges options) ;;
  match encode_ascii line with
  | Some data => sendall data
  | None => raise UnicodeEncodeError
  end.

(** ** Structures of the C libraries *)

(** [HMMD_SEARCH_STATUS]: the status header. *)
Record HMMD_SEARCH_STATUS := mkStatus {
  status : Z;
  msg_size : Z
}.

(** [HMMD_SEARCH_STATS]: the statistics block, with the fields the client
    reads.  [hit_offsets] is a C array; [[]] stands for [NULL]. *)
Record HMMD_SEARCH_STATS := mkStats {
  stats_Z : Z;
  stats_domZ : Z;
  stats_Z_setby : Z;
  stats_domZ_setby : Z;
  stats_nmodels : Z;
  stats_nseqs : Z;
  stats_n_past_msv : Z;
  stats_n_past_vit : Z;
  stats_n_past_fwd : Z;
  stats_nhits : Z;
  stats_nreported : Z;
  stats_nincluded : Z;
  hit_offsets : list Z
}.

(** [P7_HIT]: the four pointers the client resets, and the rest. *)
Record P7_HIT := mkHit {
  hit_name : option bytes;
  hit_acc : option bytes;
  hit_desc : option bytes;
  hit_dcl : option bytes;
  hit_body : bytes
}.

Record P7_PIPELINE := mkPli {
  pli_mode : p7_pipemodes_e;
  pli_nmodels : Z;
  pli_nseqs : Z;
  pli_n_past_msv : Z;
  pli_n_past_vit : Z;
  pli_n_past_fwd : Z;
  pli_Z : Z;
  pli_domZ : Z;
  pli_Z_setby : Z;
  pli_domZ_setby : Z;
  pli_rest : bytes
}.

(** An entry of the array [P7_TOPHITS.hit]: a pointer to a record of
    [P7_TOPHITS.unsrt], or whatever [realloc] left there. *)
Inductive hit_ptr :=
| Indeterminate
| AddressOfUnsrt (i : nat).

Record P7_TOPHITS := mkTh {
  hit : list hit_ptr;
  unsrt : list P7_HIT;
  Nalloc : Z;
  N : Z;
  nreported : Z;
  nincluded : Z;
  is_sorted_by_sortkey : bool;
  is_sorted_by_seqidx : bool
}.

(** ** The Python objects around them *)

Record Pipeline := mkPipeline {
  arguments : list string;       (* what [pli.arguments()] returns *)
  Pipeline_pli : P7_PIPELINE     (* [pli._pli] *)
}.

Record TopHits := mkTopHits {
  _pli : P7_PIPELINE;
  _th : P7_TOPHITS
}.

Inductive Alphabet :=
| Alphabet_amino
| Alphabet_of (name : string).

(** A query, as the client sees it: its [alphabet] attribute when it has
    one, the bytes its [write] method puts in the file it is given, and
    the exception [write] ends with when it fails. *)
Record Query := mkQuery {
  query_alphabet : option Alphabet;
  query_serial : bytes;
  query_failure : option exn
}.

(** The keyword arguments of an entry point. *)
Definition Keywords := list (string * pyobj).

(** ** The collaborators *)

(** The deserializers take the buffer, the value of the cursor and the
    object they fill; they give back their return code (the [int status]
    of the caller, [code] below), the new value of the cursor and the
    object. *)
Class Collaborators := {
  eslOK : Z;
  HMMD_SEARCH_STATUS_SERIAL_SIZE : Z;
  hmmd_search_status_Deserialize :
    bytes -> Z -> HMMD_SEARCH_STATUS -> Z * Z * HMMD_SEARCH_STATUS;
  p7_hmmd_search_stats_Deserialize :
    bytes -> Z -> HMMD_SEARCH_STATS -> Z * Z * HMMD_SEARCH_STATS;
  p7_hit_Deserialize :
    bytes -> Z -> P7_HIT -> Z * Z * P7_HIT;
  (* [sizeof(P7_HIT)], [sizeof(P7_HIT* )], whether the allocator grants a
     block of a given size in bytes, and what a fresh cell holds *)
  sizeof_P7_HIT : Z;
  sizeof_pointer : Z;
  heap_grants : Z -> bool;
  indeterminate_hit : P7_HIT;
  (* whether the interpreter gets the memory of a [bytearray] or of a
     [bytes] object of a given length *)
  buffer_grants : Z -> bool;
  (* [TopHits()], [bytes.decode("utf-8", "replace")] and
     [Pipeline(alphabet, **options)] *)
  TopHits_new : TopHits;
  decode_utf8_replace : bytes -> unicode;
  Pipeline_new : Alphabet -> Keywords -> outcome Pipeline
}.

(** ** Arrays of the C heap *)

(** [realloc] keeps the items that fit in the new block; the other cells
    of the new block hold indeterminate values. *)
Definition resize {A} (cells : nat) (fresh : A) (block : list A) : list A :=
  firstn cells block ++ repeat fresh (cells - length block).

(** [a[i] = x] on a C array; [None] when [i] is outside of the block. *)
Fixpoint store {A} (a : list A) (i : nat) (x : A) : option (list A) :=
  match a, i with
  | [], _ => None
  | _ :: a', O => Some (x :: a')
  | y :: a', S j => option_map (cons y) (store a' j x)
  end.

Section Daemon.

Context {lib : Collaborators}.

(** [realloc(block, count * itemsize)]: [None] for a [NULL] result. *)
Definition realloc {A} (fresh : A) (block : list A) (count itemsize : Z)
  : option (list A) :=
  let size := size_t (count * itemsize) in
  if heap_grants size
  then Some (resize (Z.to_nat (size / itemsize)) fresh block)
  else None.

(** The making of a [bytearray] or of a [bytes] object of [n] bytes:
    [OverflowError] when [n] is no [Py_ssize_t], [MemoryError] when the
    memory is not granted. *)
Definition allocate_buffer (n : Z) : M unit :=
  if PY_SSIZE_T_MAX <? n then raise OverflowError
  else if buffer_grants n then ret tt
  else raise MemoryError.

(** The sizes for which [allocate_buffer] gives a buffer. *)
Definition allocatable (n : Z) : Prop :=
  n <= PY_SSIZE_T_MAX /\ buffer_grants n = true.

(** [socket.recv(bufsize)]: a [bytes] object with room for [bufsize]
    bytes is made first; then at most [bufsize] bytes, from one
    fragment. *)
Definition recv (bufsize : Z) : M bytes :=
  if bufsize <? 0 then raise (ValueError "negative buffersize in recv")
  else
    allocate_buffer bufsize ;;
    fun w =>
      let '(data, rest) := take (Z.to_nat bufsize) (sock_in w) in
      (Return data, mkWorld rest (sock_out w) (warned w)).

(** [_recvall] (lines 141-157): [bytearray(message_size)], then the
    loop.  Every iteration stores at least one byte, so [message_size]
    iterations are enough. *)
Definition _recvall (message_size : Z) : M bytes :=
  allocate_buffer message_size ;;
  let buffer := repeat Byte.x00 (Z.to_nat message_size) in
  let view := mkView 0 (length buffer) in
  recvall_loop (Z.to_nat message_size) message_size buffer view 0.

(** [query.write(self.socket.makefile("wb"))].  The file object made
    for the call buffers what [write] gives it, and sends it when it is
    released: at the end of the statement when [write] returns; when
    [write] raises, not before the exception has left the client, so
    that nothing of the query is on the socket then. *)
Definition query_write (query : Query) : M unit :=
  match query_failure query with
  | Some e => raise e
  | None => sendall (query_serial query)
  end.

(** *** Decoding of the payload *)

(** [memset(&search_stats, 0, ...)], [memset(&search_status, 0, ...)] *)
Definition zeroed_stats : HMMD_SEARCH_STATS :=
  mkStats 0 0 0 0 0 0 0 0 0 0 0 0 [].

Definition zeroed_status : HMMD_SEARCH_STATUS := mkStatus 0 0.

(** The four assignments of [NULL] at the head of the loop body. *)
Definition clean_pointers (h : P7_HIT) : P7_HIT :=
  mkHit None None None None (hit_body h).

Definition offset_warning (i : nat) (expected found : Z) : string :=
  ("Hit offset " ++ str_of_int (Z.of_nat i)
   ++ " did not match expected (expected " ++ str_of_int expected
   ++ ", found " ++ str_of_int found ++ ")")%string.

Definition with_unsrt (th : P7_TOPHITS) (u : list P7_HIT) : P7_TOPHITS :=
  mkTh (hit th) u (Nalloc th) (N th) (nreported th) (nincluded th)
    (is_sorted_by_sortkey th) (is_sorted_by_seqidx th).

Definition with_hit (th : P7_TOPHITS) (p : list hit_ptr) : P7_TOPHITS :=
  mkTh p (unsrt th) (Nalloc th) (N th) (nreported th) (nincluded th)
    (is_sorted_by_sortkey th) (is_sorted_by_seqidx th).

(** [for i in range(search_stats.nhits)] (lines 284-302), from iteration
    [i] on, with [todo] iterations left. *)
Fixpoint deserialize_hits (todo i : nat) (response_data : bytes)
    (search_stats : HMMD_SEARCH_STATS) (hits_start : Z)
    (th : P7_TOPHITS) (buf_offset : Z) : M P7_TOPHITS :=
  match todo with
  | O => ret th
  | S todo' =>
      match nth_error (unsrt th) i, nth_error (hit_offsets search_stats) i with
      | Some slot, Some expected =>
          (if negb (uint32_t (buf_offset - hits_start) =? expected)
           then warn (offset_warning i expected
                        (uint32_t (buf_offset - hits_start)))
           else ret tt) ;;
          let '(code, n, h) :=
            p7_hit_Deserialize response_data buf_offset (clean_pointers slot) in
          if negb (code =? eslOK)
          then raise (UnexpectedError code "p7_hit_Deserialize")
          else
            match store (unsrt th) i h, store (hit th) i (AddressOfUnsrt i) with
            | Some u, Some p =>
                deserialize_hits todo' (S i) response_data search_stats
                  hits_start (with_hit (with_unsrt th u) p) (uint32_t n)
            | _, _ => undefined
            end
      | _, _ => undefined
      end
  end.

(** The two calls of [realloc], made when [nhits > 0] (lines 274-280). *)
Definition reallocate_hit_arrays (th : P7_TOPHITS) (nhits : Z)
  : M P7_TOPHITS :=
  if 0 <? nhits then
    match realloc indeterminate_hit (unsrt th) nhits sizeof_P7_HIT with
    | None => raise (AllocationError "P7_HIT" sizeof_P7_HIT nhits)
    | Some u =>
        match realloc Indeterminate (hit th) nhits sizeof_pointer with
        | None => raise (AllocationError "P7_HIT*" sizeof_pointer nhits)
        | Some p => ret (with_hit (with_unsrt th u) p)
        end
    end
  else ret th.

(** The fields of [hits._pli] and [hits._th] after the assignments that
    follow the [memcpy] of the pipeline of the request (lines 254-271). *)
Definition copy_stats_pli (pli : Pipeline) (mode : p7_pipemodes_e)
    (search_stats : HMMD_SEARCH_STATS) : P7_PIPELINE :=
  mkPli mode
    (stats_nmodels search_stats) (stats_nseqs search_stats)
    (stats_n_past_msv search_stats) (stats_n_past_vit search_stats)
    (stats_n_past_fwd search_stats)
    (stats_Z search_stats) (stats_domZ search_stats)
    (stats_Z_setby search_stats) (stats_domZ_setby search_stats)
    (pli_rest (Pipeline_pli pli)).

Definition copy_stats_th (th : P7_TOPHITS)
    (search_stats : HMMD_SEARCH_STATS) : P7_TOPHITS :=
  mkTh (hit th) (unsrt th) (Nalloc th)
    (stats_nhits search_stats)
    (stats_nreported search_stats) (stats_nincluded search_stats)
    true false.

(** The [with nogil] block (lines 242-302): from the payload to the
    collection. *)
Definition decode_response (response_data : bytes) (pli : Pipeline)
    (mode : p7_pipemodes_e) (hits : TopHits) : M TopHits :=
  let '(code, n, search_stats) :=
    p7_hmmd_search_stats_Deserialize response_data 0 zeroed_stats in
  let buf_offset := uint32_t n in
  if negb (code =? eslOK)
  then raise (UnexpectedError code "p7_hmmd_search_search_stats_Deserialize")
  else
    let hits_pli := copy_stats_pli pli mode search_stats in
    let th := copy_stats_th (_th hits) search_stats in
    th <- reallocate_hit_arrays th (stats_nhits search_stats) ;;
    let hits_start := buf_offset in
    th <- deserialize_hits (Z.to_nat (stats_nhits search_stats)) 0
            response_data search_stats hits_start th buf_offset ;;
    ret (mkTopHits hits_pli th).

(** *** [Client._client] *)

(** From the status header on (lines 223-302): what the client does
    with the answer. *)
Definition receive_response (pli : Pipeline) (mode : p7_pipemodes_e)
    (hits : TopHits) : M TopHits :=
  response <- _recvall HMMD_SEARCH_STATUS_SERIAL_SIZE ;;
  let '(code, _, search_status) :=
    hmmd_search_status_Deserialize response 0 zeroed_status in
  if negb (code =? eslOK)
  then raise (UnexpectedError code "hmmd_search_status_Deserialize")
  else if negb (status search_status =? eslOK)
  then
    error <- recv (msg_size search_status) ;;
    raise (ServerError (status search_status) (decode_utf8_replace error))
  else
    response <- _recvall (msg_size search_status) ;;
    decode_response response pli mode hits.

Definition _client (query : Query) (db : Z)
    (ranges : option (list pytuple)) (pli : Pipeline)
    (mode : p7_pipemodes_e) : M TopHits :=
  let hits := TopHits_new in
  let options := String.concat "" (arguments pli) in
  check_ranges ranges ;;
  send_request_line mode db ranges options ;;
  query_write query ;;
  sendall (ascii_literal "//") ;;
  receive_response pli mode hits.

(** *** The entry points *)

(** [getattr(query, "alphabet", Alphabet.amino())] *)
Definition alphabet_or_amino (query : Query) : Alphabet :=
  match query_alphabet query with
  | Some abc => abc
  | None => Alphabet_amino
  end.

(** The argument [db] of an entry point is declared [uint64_t]: the
    integer of the caller is converted when the entry point is called,
    before its body runs, and [OverflowError] is raised for an integer
    outside of the type. *)
Definition as_uint64_t {A} (db : Z) (body : M A) : M A :=
  if (0 <=? db) && (db <? 2 ^ 64) then body else raise OverflowError.

Definition search_seq (query : Query) (db : Z)
    (ranges : option (list pytuple)) (options : Keywords) : M TopHits :=
  as_uint64_t db (
    pli <- lift (Pipeline_new (alphabet_or_amino query) options) ;;
    _client query db ranges pli p7_SEARCH_SEQS).

Definition search_msa (query : Query) (db : Z)
    (ranges : option (list pytuple)) (options : Keywords) : M TopHits :=
  as_uint64_t db (
    pli <- lift (Pipeline_new (alphabet_or_amino query) options) ;;
    _client query db ranges pli p7_SEARCH_SEQS).

(** [query.alphabet] reads a C attribute of the [HMM]: every [HMM] has
    one; of [None], which the signature lets in, the read is undefined
    behaviour. *)
Definition search_hmm (query : Query) (db : Z)
    (ranges : option (list pytuple)) (options : Keywords) : M TopHits :=
  as_uint64_t db (
    match query_alphabet query with
    | None => undefined
    | Some abc =>
        pli <- lift (Pipeline_new abc options) ;;
        _client query db ranges pli p7_SEARCH_SEQS
    end).

Definition scan_seq (query : Query) (db : Z) (options : Keywords)
  : M TopHits :=
  as_uint64_t db (
    pli <- lift (Pipeline_new (alphabet_or_amino query) options) ;;
    _client query db None pli p7_SCAN_MODELS).

End Daemon.

(** ** What the decoding loop is compared with

    The records of a payload, read one after the other by the
    deserializer alone: no table of offsets, no arrays of pointers. *)

Section Reference.

Context {lib : Collaborators}.

(** The records decoded into [slots] from [cursor] on, or the return
    code of the first call that fails. *)
Fixpoint decode_records (payload : bytes) (cursor : Z)
    (slots : list P7_HIT) : list P7_HIT + Z :=
  match slots with
  | [] => inl []
  | slot :: slots' =>
      let '(code, n, h) :=
        p7_hit_Deserialize payload cursor (clean_pointers slot) in
      if code =? eslOK then
        match decode_records payload (uint32_t n) slots' with
        | inl hs => inl (h :: hs)
        | inr c => inr c
        end
      else inr code
  end.

(** The positions at which the successive records are read. *)
Fixpoint cursors (payload : bytes) (cursor : Z) (slots : list P7_HIT)
  : list Z :=
  match slots with
  | [] => []
  | slot :: slots' =>
      cursor ::
      (let '(code, n, _) :=
         p7_hit_Deserialize payload cursor (clean_pointers slot) in
       if code =? eslOK then cursors payload (uint32_t n) slots' else [])
  end.

(** The warnings for the positions that differ from the entries of the
    table of offsets, [i] being the index of the first position. *)
Fixpoint mismatch_warnings (i : nat) (hits_start : Z) (positions : list Z)
    (table : list Z) : list string :=
  match positions, table with
  | c :: positions', expected :: table' =>
      (if uint32_t (c - hits_start) =? expected then []
       else [offset_warning i expected (uint32_t (c - hits_start))])
      ++ mismatch_warnings (S i) hits_start positions' table'
  | _, _ => []
  end.

(** What the loop gives for the records [r]: the cells from [i] on hold
    the records and the pointers to them, the cells around ([ua], [ub],
    [pa], [pb]) are untouched; or the failure of the deserializer. *)
Definition loop_result (th : P7_TOPHITS) (ua ub : list P7_HIT)
    (pa pb : list hit_ptr) (i n : nat) (r : list P7_HIT + Z)
  : outcome P7_TOPHITS :=
  match r with
  | inl recs =>
      Return (with_hit (with_unsrt th (ua ++ recs ++ ub))
                (pa ++ map AddressOfUnsrt (seq i n) ++ pb))
  | inr code => Raise (UnexpectedError code "p7_hit_Deserialize")
  end.

(** [*th->hit[i]]: the record the [i]-th pointer of the sorted view
    refers to. *)
Definition hit_at (th : P7_TOPHITS) (i : nat) : option P7_HIT :=
  match nth_error (hit th) i with
  | Some (AddressOfUnsrt j) => nth_error (unsrt th) j
  | _ => None
  end.

(** The collection, as one goes through [hit[0]], ..., [hit[N-1]]. *)
Definition sorted_view (th : P7_TOPHITS) : list (option P7_HIT) :=
  map (hit_at th) (seq 0 (Z.to_nat (N th))).

End Reference.

(** The world after more warnings. *)
Definition warned_more (w : World) (ms : list string) : World :=
  mkWorld (sock_in w) (sock_out w) (warned w ++ ms).

(** What an entry point gives when [_client] raises [e] before any input
    or output: the failure of the constructor of the pipeline when it
    fails, [e] otherwise. *)
Definition early (built : outcome Pipeline) (e : exn) : outcome TopHits :=
  match built with
  | Return _ => Raise e
  | Raise e' => Raise e'
  | Undefined => Undefined
  | OutOfFuel => OutOfFuel
  end.

(** What an entry point gives for the integer [db] of the caller:
    [OverflowError] when it is no [uint64_t], what its body gives
    otherwise. *)
Definition converted (db : Z) (o : outcome TopHits) : outcome TopHits :=
  if (0 <=? db) && (db <? 2 ^ 64) then o else Raise OverflowError.

Definition empty_ranges_error : exn :=
  ValueError "At least one range is needed for the `ranges` argument".

Definition none_not_iterable : exn :=
  TypeError "'NoneType' object is not iterable".

(** The ranges (10,20) and (30,40). *)
Definition two_ranges : option (list pytuple) :=
  Some [[PyInt 10; PyInt 20]; [PyInt 30; PyInt 40]].

(** What is still pending on the socket once [n] bytes were read by
    reads that never ask for more than what is missing. *)
Fixpoint drain (n : nat) (fs : list fragment) : list fragment :=
  match fs with
  | [] => []
  | f :: rest =>
      if (n =? 0)%nat then fs
      else requeue (skipn n (frag_bytes f))
             (drain (n - length (frag_bytes f)) rest)
  end.


(** The request of a call: the bytes of its three writes. *)
Definition request_bytes (line : bytes) (query : Query) : list bytes :=
  [line; query_serial query; ascii_literal "//"].


(** ** A loopback server

    An instance of the collaborators, small enough to run the client on
    whole exchanges: the status header is a 32-bit status followed by a
    64-bit length, both in network order; a statistics block is the
    number of hits on one byte followed by one byte per entry of the
    offset table; a hit record is its name, preceded by its length on
    one byte. *)

Module Loopback.

Definition ord (b : byte) : Z := Z.of_N (Byte.to_N b).

Definition chr (z : Z) : byte :=
  match Byte.of_N (Z.to_N (z mod 256)) with
  | Some b => b
  | None => Byte.x00
  end.

(** Big-endian value of a run of bytes. *)
Definition be (l : bytes) : Z :=
  fold_left (fun acc b => acc * 256 + ord b) l 0.

Definition window (buf : bytes) (at_ len : Z) : bytes :=
  firstn (Z.to_nat len) (skipn (Z.to_nat at_) buf).

Definition eslEFORMAT : Z := 7.

Definition status_Deserialize (buf : bytes) (n : Z)
    (obj : HMMD_SEARCH_STATUS) : Z * Z * HMMD_SEARCH_STATUS :=
  if Z.of_nat (length buf) <? n + 12
  then (eslEFORMAT, n, obj)
  else (0, n + 12,
        mkStatus (be (window buf n 4)) (be (window buf (n + 4) 8))).

Definition stats_Deserialize (buf : bytes) (n : Z)
    (obj : HMMD_SEARCH_STATS) : Z * Z * HMMD_SEARCH_STATS :=
  match window buf n 1 with
  | [count] =>
      if Z.of_nat (length buf) <? n + 1 + ord count
      then (eslEFORMAT, n, obj)
      else (0, n + 1 + ord count,
            mkStats 0 0 0 0 1 0 0 0 0 (ord count) (ord count) (ord count)
              (map ord (window buf (n + 1) (ord count))))
  | _ => (eslEFORMAT, n, obj)
  end.

Definition hit_Deserialize (buf : bytes) (n : Z) (obj : P7_HIT)
  : Z * Z * P7_HIT :=
  match window buf n 1 with
  | [len] =>
      if Z.of_nat (length buf) <? n + 1 + ord len
      then (eslEFORMAT, n, obj)
      else (0, n + 1 + ord len,
            mkHit (Some (window buf (n + 1) (ord len)))
              (hit_acc obj) (hit_desc obj) (hit_dcl obj) [len])
  | _ => (eslEFORMAT, n, obj)
  end.

Definition stale_hit : P7_HIT := mkHit None None None None [].

Definition default_pli : P7_PIPELINE :=
  mkPli p7_SEARCH_SEQS 0 0 0 0 0 0 0 0 0 [].

(** [TopHits()]: an empty collection, with room for two hits. *)
Definition empty_hits : TopHits :=
  mkTopHits default_pli
    (mkTh [Indeterminate; Indeterminate] [stale_hit; stale_hit]
       2 0 0 0 false false).

(** Bytes of the 7-bit range as themselves, the others replaced. *)
Definition decode (b : bytes) : unicode :=
  map (fun c => if (Byte.to_N c <? 128)%N then Byte.to_N c else 65533%N) b.

(** A pipeline whose arguments are the keywords, as flags. *)
Definition new_pipeline (_ : Alphabet) (options : Keywords)
  : outcome Pipeline :=
  Return (mkPipeline
            (map (fun kv => (" --" ++ fst kv ++ " " ++ format_obj (snd kv))%string)
               options)
            default_pli).

Definition server : Collaborators := {|
  eslOK := 0;
  HMMD_SEARCH_STATUS_SERIAL_SIZE := 12;
  hmmd_search_status_Deserialize := status_Deserialize;
  p7_hmmd_search_stats_Deserialize := stats_Deserialize;
  p7_hit_Deserialize := hit_Deserialize;
  sizeof_P7_HIT := 152;
  sizeof_pointer := 8;
  heap_grants := fun size => size <? 2 ^ 32;
  buffer_grants := fun size => size <? 2 ^ 32;
  indeterminate_hit := stale_hit;
  TopHits_new := empty_hits;
  decode_utf8_replace := decode;
  Pipeline_new := new_pipeline
|}.

(** A query and a configuration. *)
Definition query : Query :=
  mkQuery None (ascii_literal ">q MKV") None.

Definition pipeline : Pipeline :=
  mkPipeline ["--F1 0.02"%string] default_pli.

Definition fragment_of (l : bytes) : list fragment :=
  match l with
  | [] => []
  | b :: more => [Frag b more]
  end.

Definition header (code size : Z) : bytes :=
  map chr [0; 0; 0; code; 0; 0; 0; 0; 0; 0; 0; size].

(** Two hits, [ab] and [c]; the table says 0 and [second]. *)
Definition payload (second : Z) : bytes :=
  map chr [2; 0; second; 2; 97; 98; 1; 99].

(** The server answers with two hits, in three fragments. *)
Definition answering (second : Z) : World :=
  mkWorld
    (fragment_of (header 0 8)
     ++ fragment_of (firstn 5 (payload second))
     ++ fragment_of (skipn 5 (payload second)))
    [] [].

(** The server reports the error 7 with a message of 11 bytes, which
    the network delivers in two fragments of 4 and 7 bytes. *)
Definition bad : fragment :=
  Frag Byte.x62 (ascii_literal "ad ").

Definition request : fragment :=
  Frag Byte.x72 (ascii_literal "equest").

Definition failing : World :=
  mkWorld (fragment_of (header 7 11) ++ bad :: [request]) [] [].

(** Six bytes, in fragments of two, three and one. *)
Definition three_fragments : list fragment :=
  [Frag Byte.x01 [Byte.x02]; Frag Byte.x03 [Byte.x04; Byte.x05];
   Frag Byte.x06 []].

(** The request line of the exchange, as text and as bytes. *)
Definition text : string :=
  Eval vm_compute in
    match request_line p7_SEARCH_SEQS 3 two_ranges
            (String.concat "" (arguments pipeline)) with
    | Return t => t
    | _ => EmptyString
    end.

Definition line : bytes :=
  Eval vm_compute in
    match encode_ascii text with
    | Some l => l
    | None => []
    end.

Definition idle : World := mkWorld [] [] [].

(** The collection and the world at the end of the exchange. *)
Definition collected : TopHits :=
  Eval vm_compute in
    match fst (@_client server query 3 two_ranges pipeline p7_SEARCH_SEQS
                 (answering 3)) with
    | Return hits => hits
    | _ => empty_hits
    end.

Definition afterwards : World :=
  Eval vm_compute in
    snd (@_client server query 3 two_ranges pipeline p7_SEARCH_SEQS
           (answering 3)).

(** The arrays of a collection with room for the two hits of [payload],
    and statistics blocks whose tables are right and wrong. *)
Definition room : P7_TOPHITS :=
  mkTh [Indeterminate; Indeterminate] [stale_hit; stale_hit]
    2 2 2 2 true false.

Definition stats_with (table : list Z) : HMMD_SEARCH_STATS :=
  mkStats 0 0 0 0 1 0 0 0 0 2 2 2 table.

End Loopback.

(** ** The client object: [__init__] and [__repr__] *)

Definition DEFAULT_ADDRESS : string := "127.0.0.1".

Definition DEFAULT_PORT : Z := 51371.

(** The attributes [__init__] sets from its arguments (lines 115-116):
    [address], a [str] or [None], and [port], a [uint16_t]. *)
Record Client := mkClient {
  address : option string;
  port : Z
}.

(** [type(self)], by its [__module__] and its [__name__]. *)
Record pytype := mkType {
  type_module : string;
  type_name : string
}.

(** The class itself. *)
Definition Client_type : pytype := mkType "pyhmmer.daemon" "Client".

(** What [__repr__] puts in [args]. *)
Inductive repr_arg :=
| ArgStr (s : string)
| ArgNone
| ArgInt (z : Z).

(** [self.address], as an object. *)
Definition address_arg (a : option string) : repr_arg :=
  match a with
  | Some s => ArgStr s
  | None => ArgNone
  end.

(** [self.address != DEFAULT_ADDRESS] *)
Definition address_differs (a : option string) : bool :=
  match a with
  | Some s => negb (String.eqb s DEFAULT_ADDRESS)
  | None => true
  end.

Definition join_error (i : nat) (found : string) : exn :=
  TypeError ("sequence item " ++ str_of_int (Z.of_nat i)
             ++ ": expected str instance, " ++ found ++ " found")%string.

(** ["".join(items)], [i] being the index of the first item: the first
    item that is not a [str] makes it raise. *)
Fixpoint join_from (i : nat) (items : list repr_arg) : outcome string :=
  match items with
  | [] => Return EmptyString
  | ArgStr s :: rest =>
      match join_from (S i) rest with
      | Return t => Return (s ++ t)%string
      | other => other
      end
  | ArgNone :: _ => Raise (join_error i "NoneType")
  | ArgInt _ :: _ => Raise (join_error i "int")
  end.

(** [__repr__] (lines 126-137). *)
Definition __repr__ (ty : pytype) (self : Client) : outcome string :=
  let args := [] in
  let args :=
    if address_differs (address self)
    then args ++ [address_arg (address self)]
    else args in
  let args :=
    if negb (port self =? DEFAULT_PORT)
    then args ++ [ArgInt (port self)]
    else args in
  match join_from 0 args with
  | Return joined =>
      Return (type_module ty ++ "." ++ type_name ty ++ "(" ++ joined ++ ")")%string
  | other => other
  end.

(** ** Words for the statements on the rest of the code *)

(** A range the validation lets through: two items, both [int]. *)
Definition int_pair (r : pytuple) : Prop :=
  exists a b,
    r = [a; b] /\ isinstance_int a = true /\ isinstance_int b = true.

(** The text of a range in the request line. *)
Definition range_text (r : pytuple) : string :=
  match r with
  | a :: b :: _ => (format_obj a ++ ".." ++ format_obj b)%string
  | _ => EmptyString
  end.

(** A character [str.encode("ascii")] refuses. *)
Definition beyond_ascii (c : ascii) : Prop := (128 <= N_of_ascii c)%N.

(** The characters of a string. *)
Fixpoint characters (s : string) : list ascii :=
  match s with
  | EmptyString => []
  | String c s' => c :: characters s'
  end.

(** The world after the three writes of a request. *)
Definition requested (w : World) (line : bytes) (query : Query) : World :=
  mkWorld (sock_in w) (sock_out w ++ request_bytes line query) (warned w).

(** The request of a call goes out whole: the ranges pass the
    validation, the request line is encoded as [line], and the query is
    written without failure. *)
Definition request_goes_out (query : Query) (db : Z)
    (ranges : option (list pytuple)) (pli : Pipeline)
    (mode : p7_pipemodes_e) (w : World) (line : bytes) : Prop :=
  check_ranges ranges w = (Return tt, w)
  /\ (exists text,
       request_line mode db ranges (String.concat "" (arguments pli))
       = Return text
       /\ encode_ascii text = Some line)
  /\ query_failure query = None.

(** The cells of an array reallocated for [count] items of [itemsize]
    bytes. *)
Definition cells (count itemsize : Z) : nat :=
  Z.to_nat (size_t (count * itemsize) / itemsize).

(** An outcome of the Python level: a value or an exception. *)
Definition defined {A} (o : outcome A) : Prop :=
  match o with
  | Return _ | Raise _ => True
  | Undefined | OutOfFuel => False
  end.

(** More exchanges with the loopback server. *)
Module Exchanges.

(** A status header alone, then the peer closes. *)
Definition header_only (code size : Z) : World :=
  mkWorld (Loopback.fragment_of (Loopback.header code size)) [] [].

(** The error 7 and its message of 11 bytes in one fragment, followed by
    the first bytes of something else. *)
Definition whole_message : fragment :=
  Frag Byte.x62 (ascii_literal "ad request" ++ [Byte.x00; Byte.x00]).

Definition failing_whole : World :=
  mkWorld (Loopback.fragment_of (Loopback.header 7 11) ++ [whole_message])
    [] [].

(** A status header that announces 2^63 bytes, and one that announces
    2^32 bytes, more than the interpreter of the loopback server gets;
    something follows them. *)
Definition oversized_header : bytes :=
  map Loopback.chr [0; 0; 0; 0; 128; 0; 0; 0; 0; 0; 0; 0].

Definition oversized : World :=
  mkWorld (Loopback.fragment_of oversized_header ++ [Loopback.bad]) [] [].



(** A statistics block that announces no hit. *)
Definition no_hit : bytes := [Byte.x00].


(** A pipeline whose arguments hold a character outside of ASCII. *)
Definition accented : Pipeline :=
  mkPipeline [String (ascii_of_nat 233) EmptyString] Loopback.default_pli.

(** A client on another port, and one without address. *)
Definition elsewhere : Client := mkClient (Some "10.0.0.1"%string) 51372.

(** The same bytes as [Loopback.three_fragments], cut otherwise. *)
Definition two_fragments : list fragment :=
  [Frag Byte.x01 [Byte.x02; Byte.x03; Byte.x04]; Frag Byte.x05 [Byte.x06]].

(** A client at another address, on the default port. *)
Definition remote : Client := mkClient (Some "10.0.0.1"%string) DEFAULT_PORT.

(** A server that refuses the status headers whose first byte is not
    zero, and is the loopback server otherwise. *)
Definition picky_status (buf : bytes) (n : Z) (obj : HMMD_SEARCH_STATUS)
  : Z * Z * HMMD_SEARCH_STATUS :=
  match buf with
  | Byte.x00 :: _ => Loopback.status_Deserialize buf n obj
  | _ => (Loopback.eslEFORMAT, n, obj)
  end.

Definition picky : Collaborators := {|
  eslOK := 0;
  HMMD_SEARCH_STATUS_SERIAL_SIZE := 12;
  hmmd_search_status_Deserialize := picky_status;
  p7_hmmd_search_stats_Deserialize := Loopback.stats_Deserialize;
  p7_hit_Deserialize := Loopback.hit_Deserialize;
  sizeof_P7_HIT := 152;
  sizeof_pointer := 8;
  heap_grants := fun size => size <? 2 ^ 32;
  buffer_grants := fun size => size <? 2 ^ 32;
  indeterminate_hit := Loopback.stale_hit;
  TopHits_new := Loopback.empty_hits;
  decode_utf8_replace := Loopback.decode;
  Pipeline_new := Loopback.new_pipeline
|}.

Definition garbled_header : bytes :=
  map Loopback.chr [255; 0; 0; 0; 0; 0; 0; 0; 0; 0; 0; 0].

Definition garbled : World :=
  mkWorld (Loopback.fragment_of garbled_header ++ [Loopback.bad]) [] [].

(** A success and a payload of 8 bytes are announced; 5 bytes arrive. *)
Definition cut_short : World :=
  mkWorld
    (Loopback.fragment_of (Loopback.header 0 8)
     ++ Loopback.fragment_of (firstn 5 (Loopback.payload 3)))
    [] [].

(** Ranges that are not pairs, and a pair that is not made of [int]. *)
Definition odd_ranges : list pytuple :=
  [[PyInt 1]; [PyStr "a"; PyInt 2]].

Definition text_ranges : list pytuple :=
  [[PyInt 1; PyStr "x"]].


(** The statistics block of [Loopback.payload 3], and of [no_hit]. *)
Definition two_hits : HMMD_SEARCH_STATS :=
  mkStats 0 0 0 0 1 0 0 0 0 2 2 2 [0; 3].

Definition zero_hits : HMMD_SEARCH_STATS :=
  mkStats 0 0 0 0 1 0 0 0 0 0 0 0 [].

End Exchanges.

(** * Properties *)

(** ** Computations *)

Lemma bind_Return {A B} (m : M A) (k : A -> M B) w b w' :
  bind m k w = (Return b, w') ->
  exists a w1, m w = (Return a, w1) /\ k a w1 = (Return b, w').
Proof.
  unfold bind. destruct (m w) as [[a | e | |] w1]; intros H;
    try discriminate.
  exists a, w1. split; [reflexivity | exact H].
Qed.

Lemma bind_step {A B} (m : M A) (k : A -> M B) w a w1 :
  m w = (Return a, w1) -> bind m k w = k a w1.
Proof. intros H. unfold bind. rewrite H. reflexivity. Qed.

(** ** The request line *)

Lemma request_line_two_ranges :
  request_line p7_SEARCH_SEQS 3 two_ranges ""
  = Return ("@--seqdb 3 --seqdb_ranges 10..20,30..40 " ++ newline)%string.
Proof. vm_compute. reflexivity. Qed.

(** C4, as the specification states it: the line for db=3, the ranges
    (10,20) and (30,40) and no option would be
    [@--seqdb 3 --seqdb_ranges 10..20,30..40] and a newline.  It is not:
    the bytes written on the socket differ from that string. *)
Lemma request_line_has_no_trailing_space_refuted :
  sock_out (snd (send_request_line p7_SEARCH_SEQS 3 two_ranges ""
                   (mkWorld [] [] [])))
  <> [ascii_literal ("@--seqdb 3 --seqdb_ranges 10..20,30..40" ++ newline)].
Proof. vm_compute. discriminate. Qed.

(** C4, amended: the [--seqdb_ranges] clause and the option string are
    joined by a space whatever the option string is, so for db=3, the
    ranges (10,20) and (30,40) and an empty option string the client
    writes exactly [@--seqdb 3 --seqdb_ranges 10..20,30..40 ] — with a
    space after the last range — and a newline. *)
Theorem request_line_two_ranges_sent (w : World) :
  send_request_line p7_SEARCH_SEQS 3 two_ranges "" w
  = (Return tt,
     mkWorld (sock_in w)
       (sock_out w
        ++ [ascii_literal ("@--seqdb 3 --seqdb_ranges 10..20,30..40 " ++ newline)])
       (warned w)).
Proof.
  unfold send_request_line, bind, lift.
  rewrite request_line_two_ranges.
  reflexivity.
Qed.

(** ** Validation of the ranges *)

Section Validation.

Context {lib : Collaborators}.

Lemma client_without_ranges query db pli mode w :
  _client query db None pli mode w
  = (Raise none_not_iterable, w).
Proof. reflexivity. Qed.

Lemma client_empty_ranges query db pli mode w :
  _client query db (Some []) pli mode w
  = (Raise empty_ranges_error, w).
Proof. reflexivity. Qed.

(** C1, on the code: a call that leaves [ranges] to its default does
    not pass the validation.  [_client] raises [TypeError] when it
    iterates over [None], in search mode and in scan mode, and leaves
    the socket as it was: the request is never encoded nor sent.
    [scan_seq], which always passes [None], fails on every call: with
    [OverflowError] when [db] is no [uint64_t], with the failure of the
    constructor of the pipeline when it fails, with this [TypeError]
    otherwise. *)
Theorem ranges_left_to_default_raise query db options pli mode w :
  _client query db None pli mode w
  = (Raise none_not_iterable, w)
  /\ scan_seq query db options w
     = (converted db
          (early (Pipeline_new (alphabet_or_amino query) options)
             none_not_iterable), w)
  /\ search_seq query db None options w
     = (converted db
          (early (Pipeline_new (alphabet_or_amino query) options)
             none_not_iterable), w).
Proof.
  split; [apply client_without_ranges |].
  unfold scan_seq, search_seq, as_uint64_t, converted, bind, lift, early.
  split; destruct ((0 <=? db) && (db <? 2 ^ 64)); try reflexivity;
    destruct (Pipeline_new _ _); reflexivity.
Qed.

(** C8: with [ranges=[]] the client raises [ValueError] and the world
    is the one it started from; in particular the log of the writes on
    the socket has no new entry.  Through the entry points of the
    sequence database searches the world is left as it was too, and the
    exception is this [ValueError] unless the call fails before it
    reaches the validation: with [OverflowError] when [db] is no
    [uint64_t], or while the pipeline is built; [search_hmm] given
    [None] for an [HMM] reads a C attribute of it, which is undefined
    behaviour. *)
Theorem empty_ranges_rejected_before_io query db options pli mode w :
  _client query db (Some []) pli mode w = (Raise empty_ranges_error, w)
  /\ search_seq query db (Some []) options w
     = (converted db
          (early (Pipeline_new (alphabet_or_amino query) options)
             empty_ranges_error), w)
  /\ search_msa query db (Some []) options w
     = (converted db
          (early (Pipeline_new (alphabet_or_amino query) options)
             empty_ranges_error), w)
  /\ search_hmm query db (Some []) options w
     = (converted db
          match query_alphabet query with
          | Some abc => early (Pipeline_new abc options) empty_ranges_error
          | None => Undefined
          end, w).
Proof.
  split; [apply client_empty_ranges |].
  unfold search_seq, search_msa, search_hmm, as_uint64_t, converted, bind,
    lift, early, undefined.
  repeat split; destruct ((0 <=? db) && (db <? 2 ^ 64)); try reflexivity.
  - destruct (Pipeline_new _ _); reflexivity.
  - destruct (Pipeline_new _ _); reflexivity.
  - destruct (query_alphabet query); [| reflexivity].
    destruct (Pipeline_new _ _); reflexivity.
Qed.

End Validation.

(** ** Exact-length reads *)

Lemma size_t_small x : 0 <= x < 2 ^ 64 -> size_t x = x.
Proof. intros H. unfold size_t. apply Z.mod_small. exact H. Qed.

Lemma frag_bytes_length f : length (frag_bytes f) = S (length (frag_more f)).
Proof. reflexivity. Qed.

Lemma stream_cons f fs : stream (f :: fs) = frag_bytes f ++ stream fs.
Proof. reflexivity. Qed.

Lemma drain_0 fs : drain 0 fs = fs.
Proof. destruct fs; reflexivity. Qed.

Lemma blit_length (buffer : bytes) start data :
  (start + length data <= length buffer)%nat ->
  length (blit buffer start data) = length buffer.
Proof.
  intros H. unfold blit.
  rewrite !length_app, length_firstn, length_skipn. lia.
Qed.

Lemma blit_prefix (buffer : bytes) start data :
  (start <= length buffer)%nat ->
  firstn (start + length data) (blit buffer start data)
  = firstn start buffer ++ data.
Proof.
  intros H. unfold blit.
  rewrite app_assoc.
  rewrite firstn_app.
  rewrite length_app, length_firstn.
  replace (Nat.min start (length buffer)) with start by lia.
  replace (start + length data - (start + length data))%nat with O by lia.
  rewrite firstn_O, app_nil_r.
  apply firstn_all2. rewrite length_app, length_firstn. lia.
Qed.

Lemma recvall_loop_done fuel n buffer view received w :
  n <= received ->
  recvall_loop fuel n buffer view received w = (Return buffer, w).
Proof.
  intros H. destruct fuel; simpl;
    (destruct (received <? n) eqn:E; [apply Z.ltb_lt in E; lia | reflexivity]).
Qed.

Lemma recvall_loop_step fuel n buffer start k received f rest out ws :
  received < n ->
  recvall_loop (S fuel) n buffer (mkView start k) received
    (mkWorld (f :: rest) out ws)
  = if Nat.eqb (length (firstn k (frag_bytes f))) 0
    then (Raise (EOFError (eof_message n received)),
          mkWorld (requeue (skipn k (frag_bytes f)) rest) out ws)
    else recvall_loop fuel n (blit buffer start (firstn k (frag_bytes f)))
           (mkView (start + Nat.min (length (firstn k (frag_bytes f))) k)
              (k - length (firstn k (frag_bytes f))))
           (size_t (received + Z.of_nat (length (firstn k (frag_bytes f)))))
           (mkWorld (requeue (skipn k (frag_bytes f)) rest) out ws).
Proof.
  intros H. cbn [recvall_loop].
  apply Z.ltb_lt in H. rewrite H.
  unfold bind, recv_into. cbn [sock_in sock_out warned take view_len view_start].
  destruct (length (firstn k (frag_bytes f))) as [| d] eqn:E.
  - reflexivity.
  - cbn [Nat.eqb].
    replace (Z.of_nat (S d) =? 0) with false by (symmetry; apply Z.eqb_neq; lia).
    unfold view_from. cbn [view_len view_start].
    rewrite Nat2Z.id. reflexivity.
Qed.

Lemma recvall_loop_spec fs : forall fuel n buffer start k received out ws,
  0 <= received -> received + Z.of_nat k = n -> n < 2 ^ 64 ->
  (start + k = length buffer)%nat -> (k <= fuel)%nat ->
  recvall_loop fuel n buffer (mkView start k) received (mkWorld fs out ws)
  = if (k <=? length (stream fs))%nat
    then (Return (firstn start buffer ++ firstn k (stream fs)),
          mkWorld (drain k fs) out ws)
    else (Raise (EOFError
                   (eof_message n (received + Z.of_nat (length (stream fs))))),
          mkWorld [] out ws).
Proof.
  induction fs as [| f rest IH]; intros fuel n buffer start k received out ws
    Hr Hk Hn Hb Hf.
  - destruct k as [| k].
    + rewrite recvall_loop_done by lia. cbn.
      rewrite app_nil_r, firstn_all2 by lia. reflexivity.
    + destruct fuel as [| fuel]; [lia |]. cbn [recvall_loop].
      replace (received <? n) with true by (symmetry; apply Z.ltb_lt; lia).
      cbn. rewrite Z.add_0_r. reflexivity.
  - destruct k as [| k].
    + rewrite recvall_loop_done by lia. cbn [Nat.leb].
      rewrite firstn_O, app_nil_r, firstn_all2 by lia.
      rewrite drain_0. reflexivity.
    + destruct fuel as [| fuel]; [lia |].
      rewrite recvall_loop_step by lia.
      rewrite stream_cons, length_app.
      pose proof (frag_bytes_length f) as HL.
      set (bs := frag_bytes f) in *.
      destruct (Nat.leb_spec (S k) (length bs)) as [Hle | Hgt].
      * (* the fragment holds all that is missing *)
        assert (Hd : length (firstn (S k) bs) = S k)
          by (rewrite length_firstn; lia).
        rewrite Hd. cbn [Nat.eqb].
        rewrite recvall_loop_done by (rewrite size_t_small; lia).
        replace (S k <=? length bs + length (stream rest))%nat with true
          by (symmetry; apply Nat.leb_le; lia).
        cbn [drain]. fold bs.
        replace (S k =? 0)%nat with false by reflexivity.
        replace (S k - length bs)%nat with O by lia.
        rewrite drain_0.
        f_equal. f_equal. unfold blit.
        rewrite Hd, skipn_all2 by lia.
        rewrite app_nil_r, firstn_app.
        replace (S k - length bs)%nat with O by lia.
        rewrite firstn_O, app_nil_r. reflexivity.
      * (* the whole fragment is stored, and more is needed *)
        assert (Hall : firstn (S k) bs = bs) by (apply firstn_all2; lia).
        rewrite Hall, HL. cbn [Nat.eqb]. rewrite <- HL.
        rewrite skipn_all2 by lia. cbn [requeue].
        rewrite size_t_small by lia.
        replace (Nat.min (length bs) (S k)) with (length bs) by lia.
        rewrite IH; try lia.
        -- destruct (Nat.leb_spec (S k - length bs) (length (stream rest)))
             as [H1 | H1].
           ++ replace (S k <=? length bs + length (stream rest))%nat with true
                by (symmetry; apply Nat.leb_le; lia).
              f_equal.
              ** f_equal. rewrite blit_prefix by lia.
                 rewrite <- app_assoc. f_equal.
                 rewrite firstn_app, Hall. reflexivity.
              ** f_equal. cbn [drain]. fold bs.
                 replace (S k =? 0)%nat with false by reflexivity.
                 rewrite skipn_all2 by lia. reflexivity.
           ++ replace (S k <=? length bs + length (stream rest))%nat with false
                by (symmetry; apply Nat.leb_gt; lia).
              rewrite Nat2Z.inj_add, Z.add_assoc. reflexivity.
        -- rewrite blit_length; lia.
Qed.

Section Reads.

Context {lib : Collaborators}.

Lemma allocate_buffer_granted n w :
  allocatable n -> allocate_buffer n w = (Return tt, w).
Proof.
  intros [Hmax Hg]. unfold allocate_buffer.
  replace (PY_SSIZE_T_MAX <? n) with false by (symmetry; apply Z.ltb_ge; lia).
  rewrite Hg. reflexivity.
Qed.

Lemma allocate_buffer_overflow n w :
  PY_SSIZE_T_MAX < n -> allocate_buffer n w = (Raise OverflowError, w).
Proof.
  intros H. unfold allocate_buffer.
  replace (PY_SSIZE_T_MAX <? n) with true by (symmetry; apply Z.ltb_lt; lia).
  reflexivity.
Qed.

Lemma allocate_buffer_refused n w :
  n <= PY_SSIZE_T_MAX -> buffer_grants n = false ->
  allocate_buffer n w = (Raise MemoryError, w).
Proof.
  intros H Hg. unfold allocate_buffer.
  replace (PY_SSIZE_T_MAX <? n) with false by (symmetry; apply Z.ltb_ge; lia).
  rewrite Hg. reflexivity.
Qed.

(** The buffer is allocated or the call ends there, the world as it
    was. *)
Lemma allocate_buffer_cases n w :
  (allocatable n /\ allocate_buffer n w = (Return tt, w))
  \/ (exists e, allocate_buffer n w = (Raise e, w)).
Proof.
  destruct (Z.ltb_spec PY_SSIZE_T_MAX n) as [H | H].
  - right. eexists. apply allocate_buffer_overflow. exact H.
  - destruct (buffer_grants n) eqn:Hg.
    + left. split; [split; assumption |].
      apply allocate_buffer_granted. split; assumption.
    + right. eexists. apply allocate_buffer_refused; assumption.
Qed.

Lemma recvall_spec n fs out ws :
  0 <= n < 2 ^ 64 -> allocatable n ->
  _recvall n (mkWorld fs out ws)
  = if (Z.to_nat n <=? length (stream fs))%nat
    then (Return (firstn (Z.to_nat n) (stream fs)),
          mkWorld (drain (Z.to_nat n) fs) out ws)
    else (Raise (EOFError (eof_message n (Z.of_nat (length (stream fs))))),
          mkWorld [] out ws).
Proof.
  intros Hn Ha. unfold _recvall.
  rewrite (bind_step _ _ _ _ _ (allocate_buffer_granted n _ Ha)).
  rewrite repeat_length.
  rewrite recvall_loop_spec; try lia.
  - reflexivity.
  - rewrite repeat_length. lia.
Qed.

Lemma recvall_overflow n w :
  PY_SSIZE_T_MAX < n -> _recvall n w = (Raise OverflowError, w).
Proof.
  intros H. unfold _recvall, bind.
  rewrite allocate_buffer_overflow by exact H. reflexivity.
Qed.

Lemma recvall_refused n w :
  n <= PY_SSIZE_T_MAX -> buffer_grants n = false ->
  _recvall n w = (Raise MemoryError, w).
Proof.
  intros H Hg. unfold _recvall, bind.
  rewrite allocate_buffer_refused by assumption. reflexivity.
Qed.

Lemma recv_granted n w :
  0 <= n -> allocatable n ->
  recv n w
  = (Return (fst (take (Z.to_nat n) (sock_in w))),
     mkWorld (snd (take (Z.to_nat n) (sock_in w))) (sock_out w) (warned w)).
Proof.
  intros Hn Ha. unfold recv.
  replace (n <? 0) with false by (symmetry; apply Z.ltb_ge; lia).
  rewrite (bind_step _ _ _ _ _ (allocate_buffer_granted n _ Ha)).
  destruct (take (Z.to_nat n) (sock_in w)). reflexivity.
Qed.

Lemma recv_overflow n w :
  PY_SSIZE_T_MAX < n -> recv n w = (Raise OverflowError, w).
Proof.
  intros H. unfold recv, bind.
  replace (n <? 0) with false
    by (symmetry; apply Z.ltb_ge; unfold PY_SSIZE_T_MAX in H; lia).
  rewrite allocate_buffer_overflow by exact H. reflexivity.
Qed.


End Reads.

Lemma stream_requeue left rest : stream (requeue left rest) = left ++ stream rest.
Proof. destruct left; reflexivity. Qed.

Lemma stream_drain fs : forall k, stream (drain k fs) = skipn k (stream fs).
Proof.
  induction fs as [| f rest IH]; intros k.
  - cbn. rewrite skipn_nil. reflexivity.
  - cbn [drain]. destruct k as [| k]; [reflexivity |].
    cbn [Nat.eqb]. rewrite stream_requeue, IH, stream_cons, skipn_app.
    reflexivity.
Qed.

Lemma stream_app a b : stream (a ++ b) = stream a ++ stream b.
Proof. unfold stream. rewrite map_app, concat_app. reflexivity. Qed.

Lemma drain_exact hf : forall rest,
  drain (length (stream hf)) (hf ++ rest) = rest.
Proof.
  induction hf as [| f hf IH]; intros rest.
  - apply drain_0.
  - rewrite stream_cons, length_app. cbn [app drain].
    pose proof (frag_bytes_length f) as HL.
    destruct (Nat.eqb_spec (length (frag_bytes f) + length (stream hf)) 0)
      as [H0 | _]; [lia |].
    rewrite skipn_all2 by lia. cbn [requeue].
    replace (length (frag_bytes f) + length (stream hf) - length (frag_bytes f))%nat
      with (length (stream hf)) by lia.
    apply IH.
Qed.

(** C3, as the specification states it: for every [n], when the peer
    closes after fewer than [n] bytes [_recvall] raises an end-of-file
    error.  It does not for [n] = 2^63 on a connection the peer closed
    at once: [bytearray(n)] raises [OverflowError], and nothing is
    read. *)
Lemma recvall_eof_for_every_size_refuted :
  ~ exists msg w',
      @_recvall Loopback.server (2 ^ 63) (mkWorld [] [] [])
      = (Raise (EOFError msg), w').
Proof. intros (msg & w' & H). vm_compute in H. discriminate H. Qed.

Section ExactLength.

Context {lib : Collaborators}.

(** C3, amended: for every [n] that is a [Py_ssize_t] and whose buffer
    the interpreter can allocate, and every run of fragments: when the
    fragments hold at least [n] bytes [_recvall] returns a buffer of
    exactly [n] bytes, the first [n] bytes delivered, and leaves the
    other bytes pending; when the peer closes after fewer than [n] bytes
    it raises [EOFError].  For a larger [n] it raises [OverflowError],
    and [MemoryError] when the buffer is not granted, in both cases
    before it reads anything.  Whatever [n] and the run, a buffer it
    returns has [n] bytes, never fewer. *)
Theorem recvall_exact_or_eof (n : Z) (fs : list fragment)
    (out : list bytes) (ws : list string) :
  0 <= n < 2 ^ 64 ->
  (allocatable n ->
   (n <= Z.of_nat (length (stream fs)) ->
    exists pending,
      _recvall n (mkWorld fs out ws)
      = (Return (firstn (Z.to_nat n) (stream fs)), mkWorld pending out ws)
      /\ Z.of_nat (length (firstn (Z.to_nat n) (stream fs))) = n
      /\ stream pending = skipn (Z.to_nat n) (stream fs))
   /\ (Z.of_nat (length (stream fs)) < n ->
       _recvall n (mkWorld fs out ws)
       = (Raise (EOFError (eof_message n (Z.of_nat (length (stream fs))))),
          mkWorld [] out ws)))
  /\ (PY_SSIZE_T_MAX < n ->
      _recvall n (mkWorld fs out ws)
      = (Raise OverflowError, mkWorld fs out ws))
  /\ (n <= PY_SSIZE_T_MAX -> buffer_grants n = false ->
      _recvall n (mkWorld fs out ws)
      = (Raise MemoryError, mkWorld fs out ws))
  /\ (forall buffer w',
      _recvall n (mkWorld fs out ws) = (Return buffer, w') ->
      Z.of_nat (length buffer) = n).
Proof.
  intros Hn. split; [| split; [| split]].
  - intros Ha. rewrite recvall_spec by assumption.
    destruct (Nat.leb_spec (Z.to_nat n) (length (stream fs))) as [Hle | Hgt].
    + split.
      * intros _. exists (drain (Z.to_nat n) fs).
        split; [reflexivity |]. split.
        -- rewrite length_firstn. lia.
        -- apply stream_drain.
      * intros H. lia.
    + split.
      * intros H. lia.
      * intros _. reflexivity.
  - apply recvall_overflow.
  - apply recvall_refused.
  - intros buffer w' H.
    destruct (Z.ltb_spec PY_SSIZE_T_MAX n) as [Ho | Ho].
    + rewrite recvall_overflow in H by exact Ho. discriminate H.
    + destruct (buffer_grants n) eqn:Hg.
      * rewrite recvall_spec in H by (assumption || (split; assumption)).
        destruct (Nat.leb_spec (Z.to_nat n) (length (stream fs)));
          [| discriminate H].
        injection H as <- _. rewrite length_firstn. lia.
      * rewrite recvall_refused in H by assumption. discriminate H.
Qed.

End ExactLength.

(** ** The decoding loop *)

Lemma store_app {A} (a : list A) y b x :
  store (a ++ y :: b) (length a) x = Some (a ++ x :: b).
Proof.
  induction a as [| z a IH]; cbn; [reflexivity |].
  rewrite IH. reflexivity.
Qed.

Lemma nth_error_middle {A} (a : list A) y b :
  nth_error (a ++ y :: b) (length a) = Some y.
Proof. rewrite nth_error_app2, Nat.sub_diag by lia. reflexivity. Qed.

Lemma store_length {A} (a : list A) : forall i x a',
  store a i x = Some a' -> length a' = length a /\ (i < length a)%nat.
Proof.
  induction a as [| y a IH]; intros i x a' H; [discriminate |].
  destruct i as [| i]; cbn in H.
  - injection H as <-. cbn. lia.
  - destruct (store a i x) as [a1 |] eqn:E; [| discriminate].
    injection H as <-. apply IH in E. cbn. lia.
Qed.

Lemma with_arrays_same th : with_hit (with_unsrt th (unsrt th)) (hit th) = th.
Proof. destruct th; reflexivity. Qed.

Section Loop.
Context {lib : Collaborators}.

Lemma warned_more_nil w : warned_more w [] = w.
Proof. destruct w; unfold warned_more; cbn. rewrite app_nil_r. reflexivity. Qed.

Lemma warned_more_more w a b :
  warned_more (warned_more w a) b = warned_more w (a ++ b).
Proof. unfold warned_more; cbn. rewrite app_assoc. reflexivity. Qed.

Lemma deserialize_hits_frame payload stats start slots :
  forall th ua ub pa pm pb ta tm tb cursor w,
  unsrt th = ua ++ slots ++ ub ->
  hit th = pa ++ pm ++ pb ->
  hit_offsets stats = ta ++ tm ++ tb ->
  length pa = length ua -> length ta = length ua ->
  length pm = length slots -> length tm = length slots ->
  deserialize_hits (length slots) (length ua) payload stats start th cursor w
  = (loop_result th ua ub pa pb (length ua) (length slots)
       (decode_records payload cursor slots),
     warned_more w
       (mismatch_warnings (length ua) start (cursors payload cursor slots) tm)).
Proof.
  induction slots as [| slot slots IH];
    intros th ua ub pa pm pb ta tm tb cursor w Hu Hp Ht Hpa Hta Hpm Htm.
  - destruct pm; [| discriminate]. cbn in *.
    rewrite warned_more_nil, <- Hu, <- Hp, with_arrays_same. reflexivity.
  - destruct pm as [| p0 pm]; [discriminate |].
    destruct tm as [| expected tm]; [discriminate |].
    cbn [length deserialize_hits].
    rewrite Hu, Ht. cbn [app]. rewrite nth_error_middle.
    rewrite <- Hta, nth_error_middle, Hta.
    cbn [decode_records cursors mismatch_warnings].
    destruct (p7_hit_Deserialize payload cursor (clean_pointers slot))
      as [[code n] h] eqn:Ed.
    set (ms := if uint32_t (cursor - start) =? expected then []
               else [offset_warning (length ua) expected
                       (uint32_t (cursor - start))]).
    assert (Hwarn :
      (if negb (uint32_t (cursor - start) =? expected)
       then warn (offset_warning (length ua) expected
                    (uint32_t (cursor - start)))
       else ret tt) w = (Return tt, warned_more w ms)).
    { subst ms. destruct (uint32_t (cursor - start) =? expected); cbn.
      - rewrite warned_more_nil. reflexivity.
      - reflexivity. }
    rewrite (bind_step _ _ _ _ _ Hwarn).
    destruct (code =? eslOK) eqn:Ec; cbn [negb].
    + rewrite store_app.
      rewrite Hp. cbn [app]. rewrite <- Hpa, store_app, Hpa.
      cbn in Hpm, Htm.
      assert (Hlen : length (ua ++ [h]) = S (length ua))
        by (rewrite length_app; cbn; lia).
      pose proof (IH (with_hit (with_unsrt th (ua ++ h :: slots ++ ub))
                        (pa ++ AddressOfUnsrt (length ua) :: pm ++ pb))
                    (ua ++ [h]) ub (pa ++ [AddressOfUnsrt (length ua)]) pm pb
                    (ta ++ [expected]) tm tb (uint32_t n) (warned_more w ms))
        as IH'.
      rewrite Hlen in IH'. rewrite IH'.
      * rewrite warned_more_more. f_equal.
        destruct (decode_records payload (uint32_t n) slots) as [recs | c];
          cbn [loop_result]; [| reflexivity].
        unfold with_hit, with_unsrt; cbn.
        rewrite <- !app_assoc. reflexivity.
      * cbn. rewrite <- app_assoc. reflexivity.
      * cbn. rewrite <- app_assoc. reflexivity.
      * rewrite Ht, <- app_assoc. reflexivity.
      * rewrite length_app. cbn. lia.
      * rewrite length_app. cbn. lia.
      * lia.
      * lia.
    + unfold raise. cbn [loop_result]. rewrite app_nil_r. reflexivity.
Qed.

Lemma cursors_length payload slots : forall cursor,
  (length (cursors payload cursor slots) <= length slots)%nat.
Proof.
  induction slots as [| slot slots IH]; intros cursor; cbn; [lia |].
  destruct (p7_hit_Deserialize payload cursor (clean_pointers slot))
    as [[code n] h].
  destruct (code =? eslOK); cbn; [specialize (IH (uint32_t n)) |]; lia.
Qed.

Lemma mismatch_warnings_firstn start positions : forall i n table,
  (length positions <= n)%nat ->
  mismatch_warnings i start positions (firstn n table)
  = mismatch_warnings i start positions table.
Proof.
  induction positions as [| c positions IH]; intros i n table H;
    [reflexivity |].
  destruct n as [| n]; [cbn in H; lia |].
  destruct table as [| expected table]; [reflexivity |].
  cbn in *. rewrite IH by lia. reflexivity.
Qed.

Lemma deserialize_hits_spec n payload stats start th cursor w :
  (n <= length (unsrt th))%nat -> (n <= length (hit th))%nat ->
  (n <= length (hit_offsets stats))%nat ->
  deserialize_hits n 0 payload stats start th cursor w
  = (loop_result th [] (skipn n (unsrt th)) [] (skipn n (hit th)) 0 n
       (decode_records payload cursor (firstn n (unsrt th))),
     warned_more w
       (mismatch_warnings 0 start
          (cursors payload cursor (firstn n (unsrt th)))
          (hit_offsets stats))).
Proof.
  intros Hu Hp Ht.
  pose proof (deserialize_hits_frame payload stats start
                (firstn n (unsrt th)) th [] (skipn n (unsrt th))
                [] (firstn n (hit th)) (skipn n (hit th))
                [] (firstn n (hit_offsets stats))
                (skipn n (hit_offsets stats)) cursor w) as H.
  rewrite !length_firstn in H.
  replace (Nat.min n (length (unsrt th))) with n in H by lia.
  cbn [app length] in H.
  rewrite H; try (symmetry; apply firstn_skipn); try lia; try reflexivity.
  rewrite mismatch_warnings_firstn; [reflexivity |].
  etransitivity; [apply cursors_length |]. rewrite length_firstn. lia.
Qed.

Lemma deserialize_hits_Return_bounds payload stats start todo :
  forall i th cursor w th' w',
  deserialize_hits todo i payload stats start th cursor w = (Return th', w') ->
  todo = O
  \/ ((i + todo <= length (unsrt th))%nat
      /\ (i + todo <= length (hit th))%nat
      /\ (i + todo <= length (hit_offsets stats))%nat).
Proof.
  induction todo as [| todo IH]; intros i th cursor w th' w' H;
    [left; reflexivity | right].
  cbn [deserialize_hits] in H.
  destruct (nth_error (unsrt th) i) as [slot |] eqn:Es; [| discriminate].
  destruct (nth_error (hit_offsets stats) i) as [expected |] eqn:Ee;
    [| discriminate].
  apply bind_Return in H. destruct H as (_ & w1 & _ & H).
  destruct (p7_hit_Deserialize payload cursor (clean_pointers slot))
    as [[code n] h].
  destruct (negb (code =? eslOK)); [discriminate |].
  destruct (store (unsrt th) i h) as [u |] eqn:Eu; [| discriminate].
  destruct (store (hit th) i (AddressOfUnsrt i)) as [p |] eqn:Ep;
    [| discriminate].
  apply store_length in Eu, Ep.
  assert (i < length (hit_offsets stats))%nat
    by (apply nth_error_Some; congruence).
  apply IH in H. cbn [unsrt hit with_hit with_unsrt] in H.
  destruct H as [-> | H]; lia.
Qed.

End Loop.

(** ** From the payload to the collection *)

Section Decoding.

Context {lib : Collaborators}.

Lemma decode_records_length payload slots : forall cursor recs,
  decode_records payload cursor slots = inl recs ->
  length recs = length slots.
Proof.
  induction slots as [| slot slots IH]; intros cursor recs H; cbn in H.
  - injection H as <-. reflexivity.
  - destruct (p7_hit_Deserialize payload cursor (clean_pointers slot))
      as [[code n] h].
    destruct (code =? eslOK); [| discriminate].
    destruct (decode_records payload (uint32_t n) slots) as [hs | c] eqn:E;
      [| discriminate].
    injection H as <-. cbn. f_equal. eapply IH. exact E.
Qed.

Lemma reallocate_Return th nhits w th1 w1 :
  reallocate_hit_arrays th nhits w = (Return th1, w1) ->
  w1 = w /\ exists u p, th1 = with_hit (with_unsrt th u) p.
Proof.
  unfold reallocate_hit_arrays. intros H.
  destruct (0 <? nhits).
  - destruct (realloc indeterminate_hit (unsrt th) nhits sizeof_P7_HIT)
      as [u |]; [| discriminate].
    destruct (realloc Indeterminate (hit th) nhits sizeof_pointer)
      as [p |]; [| discriminate].
    injection H as <- <-. split; [reflexivity |].
    exists u, p. reflexivity.
  - injection H as <- <-. split; [reflexivity |].
    exists (unsrt th), (hit th). symmetry. apply with_arrays_same.
Qed.

(** A collection is returned only when the statistics block and every
    record were deserialized: the collection is then the one built from
    the records, in the order of the payload. *)
Lemma decode_response_Return payload pli mode hits w res w' :
  decode_response payload pli mode hits w = (Return res, w') ->
  exists cursor stats th1 recs,
    p7_hmmd_search_stats_Deserialize payload 0 zeroed_stats
    = (eslOK, cursor, stats)
    /\ (exists u p,
        th1 = with_hit (with_unsrt (copy_stats_th (_th hits) stats) u) p)
    /\ (Z.to_nat (stats_nhits stats) <= length (unsrt th1))%nat
    /\ (Z.to_nat (stats_nhits stats) <= length (hit th1))%nat
    /\ (Z.to_nat (stats_nhits stats) <= length (hit_offsets stats))%nat
    /\ decode_records payload (uint32_t cursor)
         (firstn (Z.to_nat (stats_nhits stats)) (unsrt th1)) = inl recs
    /\ res = mkTopHits (copy_stats_pli pli mode stats)
               (with_hit
                  (with_unsrt th1
                     (recs ++ skipn (Z.to_nat (stats_nhits stats)) (unsrt th1)))
                  (map AddressOfUnsrt (seq 0 (Z.to_nat (stats_nhits stats)))
                   ++ skipn (Z.to_nat (stats_nhits stats)) (hit th1)))
    /\ w' = warned_more w
              (mismatch_warnings 0 (uint32_t cursor)
                 (cursors payload (uint32_t cursor)
                    (firstn (Z.to_nat (stats_nhits stats)) (unsrt th1)))
                 (hit_offsets stats)).
Proof.
  unfold decode_response. intros H.
  destruct (p7_hmmd_search_stats_Deserialize payload 0 zeroed_stats)
    as [[code cursor] stats].
  destruct (code =? eslOK) eqn:Ec; [| discriminate]. cbn [negb] in H.
  apply Z.eqb_eq in Ec. subst code.
  apply bind_Return in H. destruct H as (th1 & w1 & Hre & H).
  apply bind_Return in H. destruct H as (th2 & w2 & Hloop & H).
  injection H as <- <-.
  apply reallocate_Return in Hre. destruct Hre as [-> Harrays].
  pose proof (deserialize_hits_Return_bounds _ _ _ _ _ _ _ _ _ _ Hloop)
    as Hb.
  assert (Hb' : (Z.to_nat (stats_nhits stats) <= length (unsrt th1))%nat
                /\ (Z.to_nat (stats_nhits stats) <= length (hit th1))%nat
                /\ (Z.to_nat (stats_nhits stats)
                    <= length (hit_offsets stats))%nat)
    by (destruct Hb as [-> | Hb]; [lia | exact Hb]).
  destruct Hb' as (Hu & Hp & Ht).
  rewrite deserialize_hits_spec in Hloop by assumption.
  destruct (decode_records payload (uint32_t cursor)
              (firstn (Z.to_nat (stats_nhits stats)) (unsrt th1)))
    as [recs | c] eqn:Er; cbn [loop_result] in Hloop; [| discriminate].
  injection Hloop as <- <-.
  exists cursor, stats, th1, recs.
  repeat split; try assumption; reflexivity.
Qed.

(** A call returns what the decoding of the payload returned, the
    payload being the [msg_size] bytes read after a status header that
    reports no error. *)
Lemma client_Return query db ranges pli mode w res w' :
  _client query db ranges pli mode w = (Return res, w') ->
  exists w0 header cursor search_status w1 payload w2,
    _recvall HMMD_SEARCH_STATUS_SERIAL_SIZE w0 = (Return header, w1)
    /\ hmmd_search_status_Deserialize header 0 zeroed_status
       = (eslOK, cursor, search_status)
    /\ status search_status = eslOK
    /\ _recvall (msg_size search_status) w1 = (Return payload, w2)
    /\ decode_response payload pli mode TopHits_new w2 = (Return res, w').
Proof.
  unfold _client. intros H.
  apply bind_Return in H. destruct H as (_ & wa & _ & H).
  apply bind_Return in H. destruct H as (_ & wb & _ & H).
  apply bind_Return in H. destruct H as (_ & wc & _ & H).
  apply bind_Return in H. destruct H as (_ & w0 & _ & H).
  unfold receive_response in H.
  apply bind_Return in H. destruct H as (header & w1 & Hh & H).
  destruct (hmmd_search_status_Deserialize header 0 zeroed_status)
    as [[code cursor] search_status] eqn:Ed.
  destruct (code =? eslOK) eqn:Ec; [| discriminate].
  apply Z.eqb_eq in Ec. subst code. cbn [negb] in H.
  destruct (status search_status =? eslOK) eqn:Es; cbn [negb] in H.
  - apply Z.eqb_eq in Es.
    apply bind_Return in H. destruct H as (payload & w2 & Hp & H).
    exists w0, header, cursor, search_status, w1, payload, w2.
    repeat split; assumption.
  - apply bind_Return in H. destruct H as (? & ? & _ & H). discriminate.
Qed.

(** C2: when a call returns a collection, the payload it read and
    decoded starts with a statistics block that was deserialized, and
    the count stored in the collection is the number of hits [nhits] of
    that block; the hit records were decoded from the payload one after
    the other ([decode_records]), there are [nhits] of them (none when
    [nhits] is 0), and they are the first [nhits] records of the
    collection. *)
Theorem returned_collection_has_nhits_records
    query db ranges pli mode w res w' :
  _client query db ranges pli mode w = (Return res, w') ->
  exists search_status w1 payload w2 cursor stats slots recs,
    _recvall (msg_size search_status) w1 = (Return payload, w2)
    /\ decode_response payload pli mode TopHits_new w2 = (Return res, w')
    /\ p7_hmmd_search_stats_Deserialize payload 0 zeroed_stats
       = (eslOK, cursor, stats)
    /\ N (_th res) = stats_nhits stats
    /\ decode_records payload (uint32_t cursor) slots = inl recs
    /\ length recs = Z.to_nat (stats_nhits stats)
    /\ (0 <= stats_nhits stats -> Z.of_nat (length recs) = stats_nhits stats)
    /\ firstn (Z.to_nat (stats_nhits stats)) (unsrt (_th res)) = recs.
Proof.
  intros H. apply client_Return in H.
  destruct H as (w0 & header & c0 & search_status & w1 & payload & w2
                 & _ & _ & _ & Hpayload & H).
  pose proof H as Hdecode.
  apply decode_response_Return in H.
  destruct H as (cursor & stats & th1 & recs & Hs & (u & p & Hth) & Hu & Hp
                 & Ht & Hr & -> & _).
  pose proof (decode_records_length _ _ _ _ Hr) as Hlen.
  rewrite length_firstn in Hlen.
  exists search_status, w1, payload, w2, cursor, stats,
    (firstn (Z.to_nat (stats_nhits stats)) (unsrt th1)), recs.
  split; [exact Hpayload |]. split; [exact Hdecode |].
  repeat split.
  - exact Hs.
  - subst th1. reflexivity.
  - exact Hr.
  - lia.
  - lia.
  - cbn [_th unsrt with_hit with_unsrt].
    rewrite firstn_app.
    replace (Z.to_nat (stats_nhits stats) - length recs)%nat with O by lia.
    rewrite firstn_O, app_nil_r. apply firstn_all2. lia.
Qed.

(** The entry points return what [_client] returns. *)
Lemma entry_point_Return query db ranges options w res w' :
  search_seq query db ranges options w = (Return res, w')
  \/ search_msa query db ranges options w = (Return res, w')
  \/ search_hmm query db ranges options w = (Return res, w')
  \/ scan_seq query db options w = (Return res, w') ->
  exists ranges' pli mode,
    _client query db ranges' pli mode w = (Return res, w').
Proof.
  unfold search_seq, search_msa, search_hmm, scan_seq, as_uint64_t.
  destruct ((0 <=? db) && (db <? 2 ^ 64));
    [| intros [H | [H | [H | H]]]; discriminate H].
  intros [H | [H | [H | H]]].
  - apply bind_Return in H. destruct H as (pli & w1 & Hl & H).
    unfold lift in Hl. injection Hl as _ <-. eauto.
  - apply bind_Return in H. destruct H as (pli & w1 & Hl & H).
    unfold lift in Hl. injection Hl as _ <-. eauto.
  - destruct (query_alphabet query) as [abc |]; [| discriminate].
    apply bind_Return in H. destruct H as (pli & w1 & Hl & H).
    unfold lift in Hl. injection Hl as _ <-. eauto.
  - apply bind_Return in H. destruct H as (pli & w1 & Hl & H).
    unfold lift in Hl. injection Hl as _ <-. eauto.
Qed.

(** C6: a collection returned by a call — by [_client], and so by any
    of [search_seq], [search_msa], [search_hmm] and [scan_seq] — is
    flagged as sorted by key and not as sorted by target index; the two
    flags are not both set. *)
Theorem returned_collection_sorted_by_key
    query db ranges options pli mode w res w' :
  _client query db ranges pli mode w = (Return res, w')
  \/ search_seq query db ranges options w = (Return res, w')
  \/ search_msa query db ranges options w = (Return res, w')
  \/ search_hmm query db ranges options w = (Return res, w')
  \/ scan_seq query db options w = (Return res, w') ->
  is_sorted_by_sortkey (_th res) = true
  /\ is_sorted_by_seqidx (_th res) = false
  /\ is_sorted_by_sortkey (_th res) && is_sorted_by_seqidx (_th res) = false.
Proof.
  intros H.
  assert (Hc : exists ranges' pli' mode',
             _client query db ranges' pli' mode' w = (Return res, w')).
  { destruct H as [H | H]; [eauto | eapply entry_point_Return; exact H]. }
  destruct Hc as (ranges' & pli' & mode' & Hc).
  apply client_Return in Hc.
  destruct Hc as (w0 & header & c0 & search_status & w1 & payload & w2
                  & _ & _ & _ & _ & Hd).
  apply decode_response_Return in Hd.
  destruct Hd as (cursor & stats & th1 & recs & _ & (u & p & ->) & _ & _
                  & _ & _ & -> & _).
  cbn. repeat split.
Qed.

Lemma hit_at_pointers th recs ub pb n i :
  length recs = n -> (i < n)%nat ->
  hit_at (with_hit (with_unsrt th (recs ++ ub))
            (map AddressOfUnsrt (seq 0 n) ++ pb)) i
  = nth_error recs i.
Proof.
  intros Hn Hi. unfold hit_at. cbn [hit unsrt with_hit with_unsrt].
  rewrite nth_error_app1 by (rewrite length_map, length_seq; exact Hi).
  rewrite nth_error_map, nth_error_seq.
  replace (i <? n)%nat with true by (symmetry; apply Nat.ltb_lt; exact Hi).
  cbn. apply nth_error_app1. lia.
Qed.

(** C10: when a call returns a collection built from the [nhits]
    records of the payload it read, for every [i < nhits] the [i]-th
    pointer of the sorted view is the address of the [i]-th record of
    the unsorted array, which holds the [i]-th record decoded from the
    payload; so the collection, gone through its pointers, gives the
    records in the order of the payload, while it is flagged as sorted
    by key. *)
Theorem sorted_view_is_transmission_order
    query db ranges pli mode w res w' :
  _client query db ranges pli mode w = (Return res, w') ->
  exists search_status w1 payload w2 cursor stats slots recs,
    _recvall (msg_size search_status) w1 = (Return payload, w2)
    /\ decode_response payload pli mode TopHits_new w2 = (Return res, w')
    /\ p7_hmmd_search_stats_Deserialize payload 0 zeroed_stats
       = (eslOK, cursor, stats)
    /\ decode_records payload (uint32_t cursor) slots = inl recs
    /\ length recs = Z.to_nat (stats_nhits stats)
    /\ (forall i, (i < Z.to_nat (stats_nhits stats))%nat ->
        nth_error (hit (_th res)) i = Some (AddressOfUnsrt i)
        /\ nth_error (unsrt (_th res)) i = nth_error recs i)
    /\ sorted_view (_th res) = map Some recs
    /\ is_sorted_by_sortkey (_th res) = true.
Proof.
  intros H. apply client_Return in H.
  destruct H as (w0 & header & c0 & search_status & w1 & payload & w2
                 & _ & _ & _ & Hpayload & H).
  pose proof H as Hdecode.
  apply decode_response_Return in H.
  destruct H as (cursor & stats & th1 & recs & Hs & (u & p & Hth) & Hu & Hp
                 & Ht & Hr & -> & _).
  pose proof (decode_records_length _ _ _ _ Hr) as Hlen.
  rewrite length_firstn in Hlen.
  assert (Hn : length recs = Z.to_nat (stats_nhits stats)) by lia.
  exists search_status, w1, payload, w2, cursor, stats,
    (firstn (Z.to_nat (stats_nhits stats)) (unsrt th1)), recs.
  split; [exact Hpayload |]. split; [exact Hdecode |].
  split; [exact Hs |]. split; [exact Hr |]. split; [exact Hn |].
  cbn [_th]. split; [| split].
  - intros i Hi. cbn [hit unsrt with_hit with_unsrt]. split.
    + rewrite nth_error_app1 by (rewrite length_map, length_seq; exact Hi).
      rewrite nth_error_map, nth_error_seq.
      replace (i <? Z.to_nat (stats_nhits stats))%nat with true
        by (symmetry; apply Nat.ltb_lt; exact Hi).
      reflexivity.
    + apply nth_error_app1. lia.
  - unfold sorted_view.
    replace (N (with_hit
                  (with_unsrt th1
                     (recs ++ skipn (Z.to_nat (stats_nhits stats)) (unsrt th1)))
                  (map AddressOfUnsrt (seq 0 (Z.to_nat (stats_nhits stats)))
                   ++ skipn (Z.to_nat (stats_nhits stats)) (hit th1))))
      with (stats_nhits stats) by (subst th1; reflexivity).
    rewrite <- Hn.
    apply nth_error_ext. intros i.
    rewrite !nth_error_map, nth_error_seq.
    destruct (Nat.ltb_spec i (length recs)) as [Hi | Hi].
    + cbn [option_map Nat.add].
      rewrite hit_at_pointers by (try rewrite Hn; lia).
      destruct (nth_error recs i) eqn:E; [reflexivity |].
      apply nth_error_None in E. lia.
    + cbn [option_map].
      replace (nth_error recs i) with (@None P7_HIT)
        by (symmetry; apply nth_error_None; lia).
      reflexivity.
  - subst th1. reflexivity.
Qed.

End Decoding.

(** ** Mismatches with the table of offsets *)

Section Offsets.

Context {lib : Collaborators}.

Lemma mismatch_warnings_In start positions : forall i table j c expected,
  nth_error positions j = Some c ->
  nth_error table j = Some expected ->
  uint32_t (c - start) <> expected ->
  In (offset_warning (i + j) expected (uint32_t (c - start)))
    (mismatch_warnings i start positions table).
Proof.
  induction positions as [| c0 positions IH];
    intros i table j c expected Hc He Hne.
  - destruct j; discriminate.
  - destruct table as [| e0 table]; [destruct j; discriminate |].
    cbn [mismatch_warnings]. apply in_or_app.
    destruct j as [| j]; cbn in Hc, He.
    + injection Hc as ->. injection He as ->. left.
      replace (uint32_t (c - start) =? expected) with false
        by (symmetry; apply Z.eqb_neq; exact Hne).
      rewrite Nat.add_0_r. left. reflexivity.
    + right. replace (i + S j)%nat with (S i + j)%nat by lia.
      apply IH; assumption.
Qed.

(** C7: the loop over the hit records, run with a table of offsets
    that has an entry for each record.  What it returns — the records
    stored with their pointers, or the failure of the deserializer — is
    computed from the payload and the cursor alone ([decode_records]),
    and is the same for any other table: a mismatch neither raises nor
    stops the loop, and the records are read where the cursor is.  What
    it adds to the warnings is one message for each record whose
    position is not the one of the table, and nothing else; such a
    record has its message among the warnings. *)
Theorem offset_mismatch_only_warns
    n payload stats stats' hits_start th cursor w :
  (n <= length (unsrt th))%nat ->
  (n <= length (hit th))%nat ->
  (n <= length (hit_offsets stats))%nat ->
  (n <= length (hit_offsets stats'))%nat ->
  fst (deserialize_hits n 0 payload stats hits_start th cursor w)
  = loop_result th [] (skipn n (unsrt th)) [] (skipn n (hit th)) 0 n
      (decode_records payload cursor (firstn n (unsrt th)))
  /\ fst (deserialize_hits n 0 payload stats hits_start th cursor w)
     = fst (deserialize_hits n 0 payload stats' hits_start th cursor w)
  /\ snd (deserialize_hits n 0 payload stats hits_start th cursor w)
     = warned_more w
         (mismatch_warnings 0 hits_start
            (cursors payload cursor (firstn n (unsrt th)))
            (hit_offsets stats))
  /\ (forall j c expected,
      nth_error (cursors payload cursor (firstn n (unsrt th))) j = Some c ->
      nth_error (hit_offsets stats) j = Some expected ->
      uint32_t (c - hits_start) <> expected ->
      In (offset_warning j expected (uint32_t (c - hits_start)))
        (warned
           (snd (deserialize_hits n 0 payload stats hits_start th cursor w)))).
Proof.
  intros Hu Hp Ht Ht'.
  rewrite !deserialize_hits_spec by assumption.
  cbn [fst snd]. repeat split.
  intros j c expected Hc He Hne.
  unfold warned_more. cbn [warned]. apply in_or_app. right.
  apply (mismatch_warnings_In hits_start _ 0 _ j c expected); assumption.
Qed.

End Offsets.

(** ** What is written on the socket *)








Section Written.

Context {lib : Collaborators}.










(** C9, on the code: a call that leaves [ranges] to its default writes
    nothing on the socket: neither the request line, nor the query, nor
    the sentinel.  So it is of every call of [scan_seq], and of the
    calls of the three searches without ranges. *)
Theorem default_ranges_send_no_request query db options pli mode w :
  sock_out (snd (_client query db None pli mode w)) = sock_out w
  /\ sock_out (snd (scan_seq query db options w)) = sock_out w
  /\ sock_out (snd (search_seq query db None options w)) = sock_out w
  /\ sock_out (snd (search_msa query db None options w)) = sock_out w
  /\ sock_out (snd (search_hmm query db None options w)) = sock_out w.
Proof.
  split; [reflexivity |].
  unfold scan_seq, search_seq, search_msa, search_hmm, as_uint64_t, bind,
    lift, undefined.
  repeat split; destruct ((0 <=? db) && (db <? 2 ^ 64)); try reflexivity;
    try (destruct (Pipeline_new _ _); reflexivity).
  destruct (query_alphabet query); [| reflexivity].
  destruct (Pipeline_new _ _); reflexivity.
Qed.

End Written.

(** ** The error reported by the server *)

Section ServerErrors.

Context {lib : Collaborators}.

(** C5, on the code: the message of an error is read by one call of
    [recv], which returns what one fragment holds.  When the status
    header (received whole) reports an error with a message of
    [msg_size] bytes and the next fragment [f] is shorter than that, the
    client raises [ServerError] with the status and the decoding of [f]
    alone — fewer bytes than declared — and the rest of the message is
    left pending on the socket.  (The buffers of the header and of the
    message are buffers the interpreter can make.) *)
Theorem error_message_is_one_read
    pli mode hits hfs f rest out ws cursor search_status :
  0 <= HMMD_SEARCH_STATUS_SERIAL_SIZE < 2 ^ 64 ->
  allocatable HMMD_SEARCH_STATUS_SERIAL_SIZE ->
  Z.of_nat (length (stream hfs)) = HMMD_SEARCH_STATUS_SERIAL_SIZE ->
  hmmd_search_status_Deserialize (stream hfs) 0 zeroed_status
  = (eslOK, cursor, search_status) ->
  status search_status <> eslOK ->
  Z.of_nat (length (frag_bytes f)) < msg_size search_status ->
  allocatable (msg_size search_status) ->
  receive_response pli mode hits (mkWorld (hfs ++ f :: rest) out ws)
  = (Raise (ServerError (status search_status)
              (decode_utf8_replace (frag_bytes f))),
     mkWorld rest out ws).
Proof.
  intros Hsize Hbuf Hlen Hd Hs Hshort Hmsg.
  unfold receive_response.
  assert (Hrecv :
    _recvall HMMD_SEARCH_STATUS_SERIAL_SIZE (mkWorld (hfs ++ f :: rest) out ws)
    = (Return (stream hfs), mkWorld (f :: rest) out ws)).
  { rewrite recvall_spec by assumption.
    rewrite <- Hlen, Nat2Z.id, stream_app, length_app.
    replace (length (stream hfs) <=? length (stream hfs) + length (stream (f :: rest)))%nat
      with true by (symmetry; apply Nat.leb_le; lia).
    rewrite drain_exact, firstn_app, Nat.sub_diag, firstn_O, app_nil_r.
    rewrite firstn_all2 by lia. reflexivity. }
  rewrite (bind_step _ _ _ _ _ Hrecv), Hd.
  rewrite Z.eqb_refl. cbn [negb].
  replace (status search_status =? eslOK) with false
    by (symmetry; apply Z.eqb_neq; exact Hs).
  cbn [negb]. unfold bind.
  rewrite recv_granted by (assumption || lia).
  cbn [sock_in sock_out warned take fst snd].
  rewrite firstn_all2, skipn_all2 by lia.
  reflexivity.
Qed.

End ServerErrors.

(** * Runs on the loopback server *)

(** Four bytes asked for, six delivered in three fragments. *)
Lemma recvall_exact_or_eof_witness :
  0 <= 4 < 2 ^ 64
  /\ (@allocatable Loopback.server 4 ->
      (4 <= Z.of_nat (length (stream Loopback.three_fragments)) ->
       exists pending,
         @_recvall Loopback.server 4 (mkWorld Loopback.three_fragments [] [])
         = (Return (firstn (Z.to_nat 4) (stream Loopback.three_fragments)),
            mkWorld pending [] [])
         /\ Z.of_nat (length (firstn (Z.to_nat 4)
                                (stream Loopback.three_fragments))) = 4
         /\ stream pending = skipn (Z.to_nat 4) (stream Loopback.three_fragments))
      /\ (Z.of_nat (length (stream Loopback.three_fragments)) < 4 ->
          @_recvall Loopback.server 4 (mkWorld Loopback.three_fragments [] [])
          = (Raise (EOFError
                      (eof_message 4
                         (Z.of_nat (length (stream Loopback.three_fragments))))),
             mkWorld [] [] [])))
  /\ (PY_SSIZE_T_MAX < 4 ->
      @_recvall Loopback.server 4 (mkWorld Loopback.three_fragments [] [])
      = (Raise OverflowError, mkWorld Loopback.three_fragments [] []))
  /\ (4 <= PY_SSIZE_T_MAX -> @buffer_grants Loopback.server 4 = false ->
      @_recvall Loopback.server 4 (mkWorld Loopback.three_fragments [] [])
      = (Raise MemoryError, mkWorld Loopback.three_fragments [] []))
  /\ (forall buffer w',
      @_recvall Loopback.server 4 (mkWorld Loopback.three_fragments [] [])
      = (Return buffer, w') ->
      Z.of_nat (length buffer) = 4).
Proof.
  split; [lia |].
  apply (@recvall_exact_or_eof Loopback.server 4 Loopback.three_fragments
           [] []).
  lia.
Defined.

(** The exchange with two hits: the count and the records of the
    collection. *)
Lemma returned_collection_has_nhits_records_witness :
  @_client Loopback.server Loopback.query 3 two_ranges Loopback.pipeline
    p7_SEARCH_SEQS (Loopback.answering 3)
  = (Return Loopback.collected, Loopback.afterwards)
  /\ exists search_status w1 payload w2 cursor stats slots recs,
      @_recvall Loopback.server (msg_size search_status) w1 = (Return payload, w2)
      /\ @decode_response Loopback.server payload Loopback.pipeline
           p7_SEARCH_SEQS (@TopHits_new Loopback.server) w2
         = (Return Loopback.collected, Loopback.afterwards)
      /\ @p7_hmmd_search_stats_Deserialize Loopback.server payload 0
           zeroed_stats
         = (@eslOK Loopback.server, cursor, stats)
      /\ N (_th Loopback.collected) = stats_nhits stats
      /\ @decode_records Loopback.server payload (uint32_t cursor) slots
         = inl recs
      /\ length recs = Z.to_nat (stats_nhits stats)
      /\ (0 <= stats_nhits stats -> Z.of_nat (length recs) = stats_nhits stats)
      /\ firstn (Z.to_nat (stats_nhits stats)) (unsrt (_th Loopback.collected))
         = recs.
Proof.
  split; [vm_compute; reflexivity |].
  apply (@returned_collection_has_nhits_records Loopback.server
           Loopback.query 3 two_ranges Loopback.pipeline p7_SEARCH_SEQS
           (Loopback.answering 3) Loopback.collected Loopback.afterwards).
  vm_compute. reflexivity.
Defined.

(** The exchange with two hits: the flags of the collection. *)
Lemma returned_collection_sorted_by_key_witness :
  (@_client Loopback.server Loopback.query 3 two_ranges Loopback.pipeline
     p7_SEARCH_SEQS (Loopback.answering 3)
   = (Return Loopback.collected, Loopback.afterwards)
   \/ @search_seq Loopback.server Loopback.query 3 two_ranges []
        (Loopback.answering 3)
      = (Return Loopback.collected, Loopback.afterwards)
   \/ @search_msa Loopback.server Loopback.query 3 two_ranges []
        (Loopback.answering 3)
      = (Return Loopback.collected, Loopback.afterwards)
   \/ @search_hmm Loopback.server Loopback.query 3 two_ranges []
        (Loopback.answering 3)
      = (Return Loopback.collected, Loopback.afterwards)
   \/ @scan_seq Loopback.server Loopback.query 3 [] (Loopback.answering 3)
      = (Return Loopback.collected, Loopback.afterwards))
  /\ is_sorted_by_sortkey (_th Loopback.collected) = true
  /\ is_sorted_by_seqidx (_th Loopback.collected) = false
  /\ is_sorted_by_sortkey (_th Loopback.collected)
     && is_sorted_by_seqidx (_th Loopback.collected) = false.
Proof.
  assert (H : @_client Loopback.server Loopback.query 3 two_ranges
                Loopback.pipeline p7_SEARCH_SEQS (Loopback.answering 3)
              = (Return Loopback.collected, Loopback.afterwards))
    by (vm_compute; reflexivity).
  split; [left; exact H |].
  exact (@returned_collection_sorted_by_key Loopback.server
           Loopback.query 3 two_ranges [] Loopback.pipeline p7_SEARCH_SEQS
           (Loopback.answering 3) Loopback.collected Loopback.afterwards
           (or_introl H)).
Defined.

(** The exchange with two hits: the pointers of the collection. *)
Lemma sorted_view_is_transmission_order_witness :
  @_client Loopback.server Loopback.query 3 two_ranges Loopback.pipeline
    p7_SEARCH_SEQS (Loopback.answering 3)
  = (Return Loopback.collected, Loopback.afterwards)
  /\ exists search_status w1 payload w2 cursor stats slots recs,
      @_recvall Loopback.server (msg_size search_status) w1 = (Return payload, w2)
      /\ @decode_response Loopback.server payload Loopback.pipeline
           p7_SEARCH_SEQS (@TopHits_new Loopback.server) w2
         = (Return Loopback.collected, Loopback.afterwards)
      /\ @p7_hmmd_search_stats_Deserialize Loopback.server payload 0
           zeroed_stats
         = (@eslOK Loopback.server, cursor, stats)
      /\ @decode_records Loopback.server payload (uint32_t cursor) slots
         = inl recs
      /\ length recs = Z.to_nat (stats_nhits stats)
      /\ (forall i, (i < Z.to_nat (stats_nhits stats))%nat ->
          nth_error (hit (_th Loopback.collected)) i = Some (AddressOfUnsrt i)
          /\ nth_error (unsrt (_th Loopback.collected)) i = nth_error recs i)
      /\ sorted_view (_th Loopback.collected) = map Some recs
      /\ is_sorted_by_sortkey (_th Loopback.collected) = true.
Proof.
  split; [vm_compute; reflexivity |].
  apply (@sorted_view_is_transmission_order Loopback.server
           Loopback.query 3 two_ranges Loopback.pipeline p7_SEARCH_SEQS
           (Loopback.answering 3) Loopback.collected Loopback.afterwards).
  vm_compute. reflexivity.
Defined.

(** The loop over the two hits, with a table whose second entry is 9
    where the record is at 3. *)
Lemma offset_mismatch_only_warns_witness :
  (2 <= length (unsrt Loopback.room))%nat
  /\ (2 <= length (hit Loopback.room))%nat
  /\ (2 <= length (hit_offsets (Loopback.stats_with [0; 9]%Z)))%nat
  /\ (2 <= length (hit_offsets (Loopback.stats_with [0; 3]%Z)))%nat
  /\ fst (@deserialize_hits Loopback.server 2 0 (Loopback.payload 9)
            (Loopback.stats_with [0; 9]) 3 Loopback.room 3 Loopback.idle)
     = loop_result Loopback.room [] (skipn 2 (unsrt Loopback.room))
         [] (skipn 2 (hit Loopback.room)) 0 2
         (@decode_records Loopback.server (Loopback.payload 9) 3
            (firstn 2 (unsrt Loopback.room)))
  /\ fst (@deserialize_hits Loopback.server 2 0 (Loopback.payload 9)
            (Loopback.stats_with [0; 9]) 3 Loopback.room 3 Loopback.idle)
     = fst (@deserialize_hits Loopback.server 2 0 (Loopback.payload 9)
              (Loopback.stats_with [0; 3]) 3 Loopback.room 3 Loopback.idle)
  /\ snd (@deserialize_hits Loopback.server 2 0 (Loopback.payload 9)
            (Loopback.stats_with [0; 9]) 3 Loopback.room 3 Loopback.idle)
     = warned_more Loopback.idle
         (mismatch_warnings 0 3
            (@cursors Loopback.server (Loopback.payload 9) 3
               (firstn 2 (unsrt Loopback.room)))
            (hit_offsets (Loopback.stats_with [0; 9])))
  /\ (forall j c expected,
      nth_error (@cursors Loopback.server (Loopback.payload 9) 3
                   (firstn 2 (unsrt Loopback.room))) j = Some c ->
      nth_error (hit_offsets (Loopback.stats_with [0; 9])) j = Some expected ->
      uint32_t (c - 3) <> expected ->
      In (offset_warning j expected (uint32_t (c - 3)))
        (warned
           (snd (@deserialize_hits Loopback.server 2 0 (Loopback.payload 9)
                   (Loopback.stats_with [0; 9]) 3 Loopback.room 3
                   Loopback.idle)))).
Proof.
  assert (H2 : (2 <= 2)%nat) by lia.
  split; [exact H2 |]. split; [exact H2 |].
  split; [exact H2 |]. split; [exact H2 |].
  apply (@offset_mismatch_only_warns Loopback.server 2 (Loopback.payload 9)
           (Loopback.stats_with [0; 9]) (Loopback.stats_with [0; 3])
           3 Loopback.room 3 Loopback.idle); exact H2.
Defined.

(** The exchange in which the server reports an error. *)
Lemma error_message_is_one_read_witness :
  0 <= @HMMD_SEARCH_STATUS_SERIAL_SIZE Loopback.server < 2 ^ 64
  /\ @allocatable Loopback.server (@HMMD_SEARCH_STATUS_SERIAL_SIZE Loopback.server)
  /\ Z.of_nat (length (stream (Loopback.fragment_of (Loopback.header 7 11))))
     = @HMMD_SEARCH_STATUS_SERIAL_SIZE Loopback.server
  /\ @hmmd_search_status_Deserialize Loopback.server
       (stream (Loopback.fragment_of (Loopback.header 7 11))) 0 zeroed_status
     = (@eslOK Loopback.server, 12, mkStatus 7 11)
  /\ status (mkStatus 7 11) <> @eslOK Loopback.server
  /\ Z.of_nat (length (frag_bytes Loopback.bad)) < msg_size (mkStatus 7 11)
  /\ @allocatable Loopback.server (msg_size (mkStatus 7 11))
  /\ @receive_response Loopback.server Loopback.pipeline p7_SEARCH_SEQS
       Loopback.empty_hits Loopback.failing
     = (Raise (ServerError 7 (Loopback.decode (ascii_literal "bad "))),
        mkWorld [Loopback.request] [] []).
Proof.
  assert (H1 : 0 <= @HMMD_SEARCH_STATUS_SERIAL_SIZE Loopback.server < 2 ^ 64)
    by (cbn; lia).
  assert (H2 : Z.of_nat (length (stream (Loopback.fragment_of
                                           (Loopback.header 7 11))))
               = @HMMD_SEARCH_STATUS_SERIAL_SIZE Loopback.server)
    by reflexivity.
  assert (H3 : @hmmd_search_status_Deserialize Loopback.server
                 (stream (Loopback.fragment_of (Loopback.header 7 11))) 0
                 zeroed_status
               = (@eslOK Loopback.server, 12, mkStatus 7 11))
    by (vm_compute; reflexivity).
  assert (H4 : status (mkStatus 7 11) <> @eslOK Loopback.server)
    by (cbn; lia).
  assert (H5 : Z.of_nat (length (frag_bytes Loopback.bad))
               < msg_size (mkStatus 7 11))
    by (cbn; lia).
  assert (Ha : @allocatable Loopback.server
                 (@HMMD_SEARCH_STATUS_SERIAL_SIZE Loopback.server))
    by (split; [vm_compute; discriminate | reflexivity]).
  assert (Hb : @allocatable Loopback.server (msg_size (mkStatus 7 11)))
    by (split; [vm_compute; discriminate | reflexivity]).
  split; [exact H1 |]. split; [exact Ha |]. split; [exact H2 |].
  split; [exact H3 |]. split; [exact H4 |]. split; [exact H5 |].
  split; [exact Hb |].
  exact (@error_message_is_one_read Loopback.server Loopback.pipeline
           p7_SEARCH_SEQS Loopback.empty_hits
           (Loopback.fragment_of (Loopback.header 7 11))
           Loopback.bad [Loopback.request] [] [] 12 (mkStatus 7 11)
           H1 Ha H2 H3 H4 H5 Hb).
Defined.

(** The whole call on that exchange: the error carries the four bytes of
    the first fragment, out of the eleven the header declares, and the
    seven others stay on the socket for the next call to read. *)
Example server_error_truncated_on_loopback :
  @_client Loopback.server Loopback.query 3 two_ranges Loopback.pipeline
    p7_SEARCH_SEQS Loopback.failing
  = (Raise (ServerError 7 [98; 97; 100; 32]%N),
     mkWorld [Loopback.request]
       (request_bytes Loopback.line Loopback.query) []).
Proof. vm_compute. reflexivity. Qed.

(** A scan, on any exchange: nothing is sent, nothing is read. *)
Example scan_fails_on_loopback :
  @scan_seq Loopback.server Loopback.query 1 [] (Loopback.answering 3)
  = (Raise none_not_iterable, Loopback.answering 3).
Proof. vm_compute. reflexivity. Qed.

(** * The rest of the client *)

(** ** More on the validation of the ranges *)

Ltac now_raised H := cbn in H; unfold raise, ret, undefined in H; discriminate H.

Lemma int_bounds_pair r :
  length r = 2%nat -> int_bounds r = true -> int_pair r.
Proof.
  destruct r as [| a [| b [| c r]]]; try discriminate. intros _ H.
  cbn in H. apply andb_true_iff in H. destruct H as [Ha Hb].
  exists a, b. repeat split; assumption.
Qed.

Lemma int_pair_checks r :
  int_pair r -> (length r =? 2)%nat = true /\ int_bounds r = true.
Proof.
  intros (a & b & -> & Ha & Hb). cbn. rewrite Ha, Hb. split; reflexivity.
Qed.

Lemma lengths_checked (rs : list pytuple) :
  existsb (fun r : list pyobj => negb (length r =? 2)%nat) rs = false
  <-> Forall (fun r : pytuple => length r = 2%nat) rs.
Proof.
  induction rs as [| r rs IH]; cbn.
  - split; [constructor | reflexivity].
  - rewrite orb_false_iff, negb_false_iff, Nat.eqb_eq, IH.
    split.
    + intros [H1 H2]. constructor; assumption.
    + intros H. inversion H; subst. split; assumption.
Qed.

Lemma accepted_ranges_int_pairs ranges w :
  check_ranges ranges w = (Return tt, w) ->
  exists rs, ranges = Some rs /\ rs <> [] /\ Forall int_pair rs.
Proof.
  unfold check_ranges. intros H.
  destruct ranges as [rs |]; [| now_raised H].
  destruct rs as [| r rs]; [now_raised H |].
  change (length (r :: rs) <? 1)%nat with false in H.
  match type of H with
  | context [existsb ?f ?l] => destruct (existsb f l) eqn:El
  end; [now_raised H |].
  destruct (forallb int_bounds (r :: rs)) eqn:Eb; [| now_raised H].
  exists (r :: rs). split; [reflexivity |].
  split; [discriminate |].
  apply lengths_checked in El. rewrite forallb_forall in Eb.
  rewrite Forall_forall in *. intros x Hx.
  apply int_bounds_pair; [apply El | apply Eb]; exact Hx.
Qed.

(** X1: The validation lets through exactly the non-empty lists of ranges
    made of two items that are both [int] ([bool] included); [None] is
    not one of them. *)
Theorem check_ranges_accepts_iff ranges w :
  check_ranges ranges w = (Return tt, w)
  <-> exists rs, ranges = Some rs /\ rs <> [] /\ Forall int_pair rs.
Proof.
  split; [apply accepted_ranges_int_pairs |].
  intros (rs & -> & Hne & Hall). unfold check_ranges.
  destruct rs as [| r rs]; [congruence |].
  change (length (r :: rs) <? 1)%nat with false.
  match goal with
  | |- context [existsb ?f ?l] => replace (existsb f l) with false
  end.
  - replace (forallb int_bounds (r :: rs)) with true; [reflexivity |].
    symmetry. apply forallb_forall. rewrite Forall_forall in Hall.
    intros x Hx. apply int_pair_checks. apply Hall. exact Hx.
  - symmetry. apply lengths_checked.
    rewrite Forall_forall in *. intros x Hx.
    destruct (int_pair_checks x (Hall x Hx)) as [H _].
    apply Nat.eqb_eq. exact H.
Qed.

(** X2: A range that has not two items makes the validation raise
    [ValueError], whatever the other ranges hold: the lengths are all
    checked before any item is looked at. *)
Theorem wrong_length_is_ValueError rs w :
  rs <> [] ->
  Exists (fun r : pytuple => length r <> 2%nat) rs ->
  check_ranges (Some rs) w
  = (Raise (ValueError "`ranges` must be a list of two-element tuples"), w).
Proof.
  intros Hne Hex. unfold check_ranges.
  destruct rs as [| r rs]; [congruence |].
  change (length (r :: rs) <? 1)%nat with false.
  match goal with
  | |- context [existsb ?f ?l] => destruct (existsb f l) eqn:El
  end; [reflexivity |].
  apply lengths_checked in El. rewrite Forall_forall in El.
  apply Exists_exists in Hex. destruct Hex as (x & Hx & Hlen).
  elim Hlen. apply El. exact Hx.
Qed.

(** X3: When every range has two items and one of them holds an item that is
    not an [int], the validation raises [TypeError]. *)
Theorem non_int_bound_is_TypeError rs w :
  rs <> [] ->
  Forall (fun r : pytuple => length r = 2%nat) rs ->
  Exists (fun r : pytuple => exists x, In x r /\ isinstance_int x = false) rs ->
  check_ranges (Some rs) w
  = (Raise (TypeError
              "`ranges` must be a list where elements are 2-tuples of int"),
     w).
Proof.
  intros Hne Hlen Hex. unfold check_ranges.
  destruct rs as [| r rs]; [congruence |].
  change (length (r :: rs) <? 1)%nat with false.
  match goal with
  | |- context [existsb ?f ?l] =>
      replace (existsb f l) with false
        by (symmetry; apply lengths_checked; exact Hlen)
  end.
  destruct (forallb int_bounds (r :: rs)) eqn:Eb; [| reflexivity].
  rewrite forallb_forall in Eb.
  apply Exists_exists in Hex. destruct Hex as (x & Hx & y & Hy & Hno).
  specialize (Eb x Hx).
  rewrite Forall_forall in Hlen. specialize (Hlen x Hx).
  destruct x as [| a [| b [| c x]]]; try discriminate.
  cbn in Eb. apply andb_true_iff in Eb. destruct Eb as [Ha Hb].
  destruct Hy as [<- | [<- | []]]; congruence.
Qed.

Lemma format_ranges_int_pairs rs :
  Forall int_pair rs -> format_ranges rs = Return (map range_text rs).
Proof.
  induction 1 as [| r rs (a & b & -> & _ & _) _ IH]; cbn; [reflexivity |].
  rewrite IH. reflexivity.
Qed.


(** ** More on the request *)

Lemma append_assoc (a b c : string) :
  ((a ++ b) ++ c = a ++ b ++ c)%string.
Proof. induction a as [| x a IH]; cbn; [reflexivity | rewrite IH; reflexivity]. Qed.

Lemma characters_app a b :
  characters (a ++ b) = characters a ++ characters b.
Proof. induction a as [| c a IH]; cbn; [reflexivity | rewrite IH; reflexivity]. Qed.

Lemma encode_ascii_refuses s :
  Exists beyond_ascii (characters s) -> encode_ascii s = None.
Proof.
  induction s as [| c s IH]; cbn; intros H.
  - inversion H.
  - destruct (N.ltb_spec (N_of_ascii c) 128) as [Hlt | Hge]; [| reflexivity].
    inversion H as [? ? Hc | ? ? Hs]; subst.
    + unfold beyond_ascii in Hc. lia.
    + rewrite (IH Hs). reflexivity.
Qed.

Lemma encode_ascii_accepts s :
  Forall (fun c => (N_of_ascii c < 128)%N) (characters s) ->
  encode_ascii s = Some (list_byte_of_string s).
Proof.
  induction s as [| c s IH]; cbn; intros H; [reflexivity |].
  inversion H as [| ? ? Hc Hs]; subst.
  replace (N_of_ascii c <? 128)%N with true
    by (symmetry; apply N.ltb_lt; exact Hc).
  rewrite (IH Hs). reflexivity.
Qed.

Section Request.

Context {lib : Collaborators}.

(** The options are part of the request line, in both modes. *)
Lemma request_line_holds_options mode db ranges options w :
  check_ranges ranges w = (Return tt, w) ->
  exists before,
    request_line mode db ranges options
    = Return (before ++ options ++ newline)%string.
Proof.
  intros H. apply accepted_ranges_int_pairs in H.
  destruct H as (rs & -> & _ & Hall).
  destruct mode.
  - exists ("@--seqdb " ++ str_of_int db ++ " " ++ "--seqdb_ranges "
            ++ String.concat "," (map range_text rs) ++ " ")%string.
    unfold request_line, with_ranges.
    rewrite (format_ranges_int_pairs rs Hall).
    rewrite !append_assoc. reflexivity.
  - exists ("@--hmmdb " ++ str_of_int db ++ " ")%string.
    unfold request_line, with_ranges.
    rewrite !append_assoc. reflexivity.
Qed.

(** X5: When the arguments of the pipeline hold a character outside of
    ASCII, a call whose ranges are valid raises [UnicodeEncodeError]
    and the world is the one it started from: the line is encoded
    before anything is written. *)
Theorem options_outside_ascii_raise query db ranges pli mode w :
  check_ranges ranges w = (Return tt, w) ->
  Exists beyond_ascii (characters (String.concat "" (arguments pli))) ->
  _client query db ranges pli mode w = (Raise UnicodeEncodeError, w).
Proof.
  intros Hv Hc. unfold _client.
  rewrite (bind_step _ _ _ _ _ Hv).
  destruct (request_line_holds_options mode db ranges
              (String.concat "" (arguments pli)) w Hv) as (before & Hl).
  unfold send_request_line, lift. unfold bind at 1. unfold bind at 1.
  rewrite Hl.
  rewrite encode_ascii_refuses; [reflexivity |].
  rewrite !characters_app. apply Exists_app. right.
  apply Exists_app. left. exact Hc.
Qed.


(** Once its request went out, a call is the processing of the answer,
    from the world in which the three writes were made. *)
Lemma client_after_request query db ranges pli mode w line :
  request_goes_out query db ranges pli mode w line ->
  _client query db ranges pli mode w
  = receive_response pli mode TopHits_new (requested w line query).
Proof.
  intros (Hv & (text & Hl & He) & Hq). unfold _client.
  rewrite (bind_step _ _ _ _ _ Hv).
  unfold send_request_line, query_write, lift.
  unfold bind at 1. unfold bind at 1. rewrite Hl, He.
  cbn [sendall]. rewrite Hq.
  unfold bind at 1. cbn [sendall sock_in sock_out warned].
  unfold bind at 1. cbn [sendall sock_in sock_out warned].
  unfold requested, request_bytes. rewrite <- !app_assoc. reflexivity.
Qed.

End Request.

(** ** More on the answer of the server *)

Section Answer.

Context {lib : Collaborators}.

(** The status header, when it arrives whole in the fragments [hfs]. *)
Lemma status_header_received hfs pending out ws :
  0 <= HMMD_SEARCH_STATUS_SERIAL_SIZE < 2 ^ 64 ->
  allocatable HMMD_SEARCH_STATUS_SERIAL_SIZE ->
  Z.of_nat (length (stream hfs)) = HMMD_SEARCH_STATUS_SERIAL_SIZE ->
  _recvall HMMD_SEARCH_STATUS_SERIAL_SIZE (mkWorld (hfs ++ pending) out ws)
  = (Return (stream hfs), mkWorld pending out ws).
Proof.
  intros Hsize Hbuf Hlen.
  rewrite recvall_spec by assumption.
  rewrite <- Hlen, Nat2Z.id, stream_app, length_app.
  replace (length (stream hfs) <=? length (stream hfs) + length (stream pending))%nat
    with true by (symmetry; apply Nat.leb_le; lia).
  rewrite drain_exact, firstn_app, Nat.sub_diag, firstn_O, app_nil_r.
  rewrite firstn_all2 by lia. reflexivity.
Qed.

(** X7: When the peer closes before the status header is complete, the call
    raises [EOFError] with the size of the header and the number of
    bytes that arrived; the request has been written.  (The buffer of
    the header is one the interpreter can make.) *)
Theorem eof_before_status_header query db ranges pli mode w line :
  request_goes_out query db ranges pli mode w line ->
  0 <= HMMD_SEARCH_STATUS_SERIAL_SIZE < 2 ^ 64 ->
  allocatable HMMD_SEARCH_STATUS_SERIAL_SIZE ->
  Z.of_nat (length (stream (sock_in w))) < HMMD_SEARCH_STATUS_SERIAL_SIZE ->
  _client query db ranges pli mode w
  = (Raise (EOFError (eof_message HMMD_SEARCH_STATUS_SERIAL_SIZE
                        (Z.of_nat (length (stream (sock_in w)))))),
     mkWorld [] (sock_out w ++ request_bytes line query) (warned w)).
Proof.
  intros Hreq Hsize Hbuf Hshort.
  rewrite (client_after_request _ _ _ _ _ _ _ Hreq).
  unfold receive_response, requested. unfold bind at 1.
  rewrite recvall_spec by assumption.
  replace (Z.to_nat HMMD_SEARCH_STATUS_SERIAL_SIZE
           <=? length (stream (sock_in w)))%nat
    with false by (symmetry; apply Nat.leb_gt; lia).
  reflexivity.
Qed.

(** X8: When the status header cannot be deserialized, the call raises
    [UnexpectedError] with the return code; what follows the header is
    left on the socket.  (The buffer of the header is one the
    interpreter can make.) *)
Theorem unreadable_status_header
    query db ranges pli mode w line hfs pending code cursor search_status :
  request_goes_out query db ranges pli mode w line ->
  0 <= HMMD_SEARCH_STATUS_SERIAL_SIZE < 2 ^ 64 ->
  allocatable HMMD_SEARCH_STATUS_SERIAL_SIZE ->
  sock_in w = hfs ++ pending ->
  Z.of_nat (length (stream hfs)) = HMMD_SEARCH_STATUS_SERIAL_SIZE ->
  hmmd_search_status_Deserialize (stream hfs) 0 zeroed_status
  = (code, cursor, search_status) ->
  code <> eslOK ->
  _client query db ranges pli mode w
  = (Raise (UnexpectedError code "hmmd_search_status_Deserialize"),
     mkWorld pending (sock_out w ++ request_bytes line query) (warned w)).
Proof.
  intros Hreq Hsize Hbuf Hin Hlen Hd Hcode.
  rewrite (client_after_request _ _ _ _ _ _ _ Hreq).
  unfold receive_response, requested. rewrite Hin.
  rewrite (bind_step _ _ _ _ _
             (status_header_received _ _ _ _ Hsize Hbuf Hlen)).
  rewrite Hd.
  replace (code =? eslOK) with false by (symmetry; apply Z.eqb_neq; exact Hcode).
  reflexivity.
Qed.

(** What the client does of a status header that reports an error: one
    [recv] of at most [msg_size] bytes. *)
Lemma error_status_one_recv
    pli mode hits hfs pending out ws cursor search_status :
  0 <= HMMD_SEARCH_STATUS_SERIAL_SIZE < 2 ^ 64 ->
  allocatable HMMD_SEARCH_STATUS_SERIAL_SIZE ->
  Z.of_nat (length (stream hfs)) = HMMD_SEARCH_STATUS_SERIAL_SIZE ->
  hmmd_search_status_Deserialize (stream hfs) 0 zeroed_status
  = (eslOK, cursor, search_status) ->
  status search_status <> eslOK ->
  0 <= msg_size search_status ->
  allocatable (msg_size search_status) ->
  receive_response pli mode hits (mkWorld (hfs ++ pending) out ws)
  = (Raise (ServerError (status search_status)
              (decode_utf8_replace
                 (fst (take (Z.to_nat (msg_size search_status)) pending)))),
     mkWorld (snd (take (Z.to_nat (msg_size search_status)) pending)) out ws).
Proof.
  intros Hsize Hbuf Hlen Hd Hs Hpos Hmsg. unfold receive_response.
  rewrite (bind_step _ _ _ _ _
             (status_header_received _ _ _ _ Hsize Hbuf Hlen)).
  rewrite Hd, Z.eqb_refl. cbn [negb].
  replace (status search_status =? eslOK) with false
    by (symmetry; apply Z.eqb_neq; exact Hs).
  cbn [negb]. unfold bind.
  rewrite recv_granted by assumption. reflexivity.
Qed.

(** X9: When the status header reports an error and the fragment that
    follows holds the whole message, the call raises [ServerError] with
    the status and the decoding of exactly [msg_size] bytes; the bytes
    that follow the message in the fragment stay on the socket.  (The
    buffers of the header and of the message are buffers the
    interpreter can make.) *)
Theorem error_message_in_one_fragment
    query db ranges pli mode w line hfs f rest cursor search_status :
  request_goes_out query db ranges pli mode w line ->
  0 <= HMMD_SEARCH_STATUS_SERIAL_SIZE < 2 ^ 64 ->
  allocatable HMMD_SEARCH_STATUS_SERIAL_SIZE ->
  sock_in w = hfs ++ f :: rest ->
  Z.of_nat (length (stream hfs)) = HMMD_SEARCH_STATUS_SERIAL_SIZE ->
  hmmd_search_status_Deserialize (stream hfs) 0 zeroed_status
  = (eslOK, cursor, search_status) ->
  status search_status <> eslOK ->
  0 <= msg_size search_status <= Z.of_nat (length (frag_bytes f)) ->
  allocatable (msg_size search_status) ->
  _client query db ranges pli mode w
  = (Raise (ServerError (status search_status)
              (decode_utf8_replace
                 (firstn (Z.to_nat (msg_size search_status)) (frag_bytes f)))),
     mkWorld
       (requeue (skipn (Z.to_nat (msg_size search_status)) (frag_bytes f)) rest)
       (sock_out w ++ request_bytes line query) (warned w))
  /\ Z.of_nat (length (firstn (Z.to_nat (msg_size search_status))
                         (frag_bytes f)))
     = msg_size search_status.
Proof.
  intros Hreq Hsize Hbuf Hin Hlen Hd Hs Hm Hmsg. split.
  - rewrite (client_after_request _ _ _ _ _ _ _ Hreq).
    unfold requested. rewrite Hin.
    rewrite (error_status_one_recv _ _ _ _ _ _ _ _ _ Hsize Hbuf Hlen Hd Hs)
      by (assumption || lia).
    reflexivity.
  - rewrite length_firstn. lia.
Qed.

(** X10: When the status header reports an error with a message whose
    size is a [Py_ssize_t], for which the interpreter can make the
    buffer [recv] fills, and the peer closes without sending the
    message, the call raises [ServerError] with the decoding of no
    byte: the missing message is not an [EOFError]. *)
Theorem error_without_message
    query db ranges pli mode w line cursor search_status :
  request_goes_out query db ranges pli mode w line ->
  0 <= HMMD_SEARCH_STATUS_SERIAL_SIZE < 2 ^ 64 ->
  allocatable HMMD_SEARCH_STATUS_SERIAL_SIZE ->
  Z.of_nat (length (stream (sock_in w))) = HMMD_SEARCH_STATUS_SERIAL_SIZE ->
  hmmd_search_status_Deserialize (stream (sock_in w)) 0 zeroed_status
  = (eslOK, cursor, search_status) ->
  status search_status <> eslOK ->
  0 <= msg_size search_status ->
  allocatable (msg_size search_status) ->
  _client query db ranges pli mode w
  = (Raise (ServerError (status search_status) (decode_utf8_replace [])),
     mkWorld [] (sock_out w ++ request_bytes line query) (warned w)).
Proof.
  intros Hreq Hsize Hbuf Hlen Hd Hs Hpos Hmsg.
  rewrite (client_after_request _ _ _ _ _ _ _ Hreq).
  unfold requested.
  rewrite <- (app_nil_r (sock_in w)).
  rewrite (error_status_one_recv _ _ _ _ _ _ _ _ _ Hsize Hbuf Hlen Hd Hs)
    by assumption.
  reflexivity.
Qed.

(** X11: When the status header reports a success with a payload whose
    size is a [Py_ssize_t], for which the interpreter can make the
    buffer, and the peer closes before the [msg_size] bytes of the
    payload arrived, the call raises [EOFError] with [msg_size] and the
    number of bytes of the payload that arrived: nothing is decoded. *)
Theorem eof_in_payload
    query db ranges pli mode w line hfs pfs cursor search_status :
  request_goes_out query db ranges pli mode w line ->
  0 <= HMMD_SEARCH_STATUS_SERIAL_SIZE < 2 ^ 64 ->
  allocatable HMMD_SEARCH_STATUS_SERIAL_SIZE ->
  sock_in w = hfs ++ pfs ->
  Z.of_nat (length (stream hfs)) = HMMD_SEARCH_STATUS_SERIAL_SIZE ->
  hmmd_search_status_Deserialize (stream hfs) 0 zeroed_status
  = (eslOK, cursor, search_status) ->
  status search_status = eslOK ->
  0 <= msg_size search_status < 2 ^ 64 ->
  allocatable (msg_size search_status) ->
  Z.of_nat (length (stream pfs)) < msg_size search_status ->
  _client query db ranges pli mode w
  = (Raise (EOFError (eof_message (msg_size search_status)
                        (Z.of_nat (length (stream pfs))))),
     mkWorld [] (sock_out w ++ request_bytes line query) (warned w)).
Proof.
  intros Hreq Hsize Hbuf Hin Hlen Hd Hs Hm Hmsg Hshort.
  rewrite (client_after_request _ _ _ _ _ _ _ Hreq).
  unfold receive_response, requested. rewrite Hin.
  rewrite (bind_step _ _ _ _ _
             (status_header_received _ _ _ _ Hsize Hbuf Hlen)).
  rewrite Hd, Z.eqb_refl, Hs, Z.eqb_refl. cbn [negb].
  unfold bind at 1. rewrite recvall_spec by assumption.
  replace (Z.to_nat (msg_size search_status) <=? length (stream pfs))%nat
    with false by (symmetry; apply Nat.leb_gt; lia).
  reflexivity.
Qed.

(** X24: When the status header announces more bytes than a [Py_ssize_t]
    counts, the call raises [OverflowError] whether the header reports
    a success or an error, and reads nothing after the header: neither
    the payload nor the message, not even to find that the peer
    closed. *)
Theorem oversized_announcement
    query db ranges pli mode w line hfs pending cursor search_status :
  request_goes_out query db ranges pli mode w line ->
  0 <= HMMD_SEARCH_STATUS_SERIAL_SIZE < 2 ^ 64 ->
  allocatable HMMD_SEARCH_STATUS_SERIAL_SIZE ->
  sock_in w = hfs ++ pending ->
  Z.of_nat (length (stream hfs)) = HMMD_SEARCH_STATUS_SERIAL_SIZE ->
  hmmd_search_status_Deserialize (stream hfs) 0 zeroed_status
  = (eslOK, cursor, search_status) ->
  PY_SSIZE_T_MAX < msg_size search_status ->
  _client query db ranges pli mode w
  = (Raise OverflowError,
     mkWorld pending (sock_out w ++ request_bytes line query) (warned w)).
Proof.
  intros Hreq Hsize Hbuf Hin Hlen Hd Hbig.
  rewrite (client_after_request _ _ _ _ _ _ _ Hreq).
  unfold receive_response, requested. rewrite Hin.
  rewrite (bind_step _ _ _ _ _
             (status_header_received _ _ _ _ Hsize Hbuf Hlen)).
  rewrite Hd, Z.eqb_refl. cbn [negb].
  destruct (status search_status =? eslOK); cbn [negb]; unfold bind.
  - rewrite recvall_overflow by exact Hbig. reflexivity.
  - rewrite recv_overflow by exact Hbig. reflexivity.
Qed.


End Answer.

(** ** The entry points *)

Section EntryPoints.

Context {lib : Collaborators}.

(** X26: An entry point called with a [db] that is no [uint64_t] raises
    [OverflowError] before its body runs: no pipeline is built, the
    ranges are not looked at, and the socket is left as it was. *)
Theorem db_outside_uint64_t query db ranges options w :
  db < 0 \/ 2 ^ 64 <= db ->
  search_seq query db ranges options w = (Raise OverflowError, w)
  /\ search_msa query db ranges options w = (Raise OverflowError, w)
  /\ search_hmm query db ranges options w = (Raise OverflowError, w)
  /\ scan_seq query db options w = (Raise OverflowError, w).
Proof.
  intros H.
  unfold search_seq, search_msa, search_hmm, scan_seq, as_uint64_t.
  replace ((0 <=? db) && (db <? 2 ^ 64)) with false; [repeat split |].
  symmetry. apply andb_false_iff.
  destruct H as [H | H]; [left; apply Z.leb_gt | right; apply Z.ltb_ge];
    exact H.
Qed.

End EntryPoints.

(** ** More on the decoding of the payload *)

Lemma resize_length {A} (k : nat) (fresh : A) (block : list A) :
  length (resize k fresh block) = k.
Proof.
  unfold resize. rewrite length_app, length_firstn, repeat_length. lia.
Qed.

Lemma cells_exact count itemsize :
  0 < itemsize -> 0 <= count * itemsize < 2 ^ 64 ->
  cells count itemsize = Z.to_nat count.
Proof.
  intros Hs Hn. unfold cells. rewrite size_t_small by exact Hn.
  rewrite Z.div_mul by lia. reflexivity.
Qed.

Section Payload.

Context {lib : Collaborators}.

Lemma realloc_granted {A} (fresh : A) block count itemsize :
  heap_grants (size_t (count * itemsize)) = true ->
  realloc fresh block count itemsize
  = Some (resize (cells count itemsize) fresh block).
Proof. intros H. unfold realloc, cells. rewrite H. reflexivity. Qed.

(** X12: When the statistics block announces no hit, the arrays are not
    reallocated and no record is read: the collection is the one the
    client started from with the statistics copied in it, its view has
    no pointer, and the world does not change. *)
Theorem no_hit_no_array payload pli mode hits w cursor stats :
  p7_hmmd_search_stats_Deserialize payload 0 zeroed_stats
  = (eslOK, cursor, stats) ->
  stats_nhits stats = 0 ->
  decode_response payload pli mode hits w
  = (Return (mkTopHits (copy_stats_pli pli mode stats)
               (copy_stats_th (_th hits) stats)), w)
  /\ unsrt (copy_stats_th (_th hits) stats) = unsrt (_th hits)
  /\ hit (copy_stats_th (_th hits) stats) = hit (_th hits)
  /\ N (copy_stats_th (_th hits) stats) = 0
  /\ sorted_view (copy_stats_th (_th hits) stats) = [].
Proof.
  intros Hs Hn. unfold decode_response. rewrite Hs, Z.eqb_refl.
  cbn [negb]. unfold reallocate_hit_arrays. rewrite Hn.
  split; [reflexivity |]. split; [reflexivity |]. split; [reflexivity |].
  split; [exact Hn |].
  unfold sorted_view. cbn [N copy_stats_th]. rewrite Hn. reflexivity.
Qed.


(** X14: The client never writes [Nalloc]: in the collection a call returns
    it is what [TopHits()] set, while the arrays have room for the [N]
    records of the collection, however many they are. *)
Theorem returned_collection_keeps_Nalloc
    query db ranges pli mode w res w' :
  _client query db ranges pli mode w = (Return res, w') ->
  Nalloc (_th res) = Nalloc (_th TopHits_new)
  /\ (Z.to_nat (N (_th res)) <= length (unsrt (_th res)))%nat
  /\ (Z.to_nat (N (_th res)) <= length (hit (_th res)))%nat.
Proof.
  intros H. apply client_Return in H.
  destruct H as (w0 & header & c0 & search_status & w1 & payload & w2
                 & _ & _ & _ & _ & H).
  apply decode_response_Return in H.
  destruct H as (cursor & stats & th1 & recs & Hs & (u & p & ->) & Hu & Hp
                 & _ & Hr & -> & _).
  apply decode_records_length in Hr. rewrite length_firstn in Hr.
  cbn in *. split; [reflexivity |].
  rewrite !length_app, length_map, length_seq. lia.
Qed.

(** X15: When the sizes in bytes of the two arrays fit in a [size_t] and the
    table of offsets has an entry for each hit, the decoding stays
    inside the arrays it allocated: it ends with a collection or with an
    exception, never with an access outside of a block. *)
Theorem decoding_stays_in_bounds payload pli mode hits w code cursor stats :
  p7_hmmd_search_stats_Deserialize payload 0 zeroed_stats
  = (code, cursor, stats) ->
  0 < sizeof_P7_HIT -> 0 < sizeof_pointer ->
  stats_nhits stats * sizeof_P7_HIT < 2 ^ 64 ->
  stats_nhits stats * sizeof_pointer < 2 ^ 64 ->
  (Z.to_nat (stats_nhits stats) <= length (hit_offsets stats))%nat ->
  defined (fst (decode_response payload pli mode hits w)).
Proof.
  intros Hs Hsh Hsp Hh Hp Ht. unfold decode_response. rewrite Hs.
  destruct (negb (code =? eslOK)); [exact I |].
  unfold reallocate_hit_arrays.
  destruct (Z.ltb_spec 0 (stats_nhits stats)) as [Hpos | Hneg].
  - unfold realloc.
    destruct (heap_grants (size_t (stats_nhits stats * sizeof_P7_HIT)));
      [| exact I].
    destruct (heap_grants (size_t (stats_nhits stats * sizeof_pointer)));
      [| exact I].
    fold (cells (stats_nhits stats) sizeof_P7_HIT).
    fold (cells (stats_nhits stats) sizeof_pointer).
    rewrite !cells_exact by nia.
    unfold bind at 1. cbn [ret]. unfold bind.
    rewrite deserialize_hits_spec
      by (cbn [unsrt hit with_hit with_unsrt]; rewrite ?resize_length; lia).
    match goal with
    | |- context [decode_records ?a ?b ?c] => destruct (decode_records a b c)
    end; exact I.
  - unfold bind at 1. cbn [ret].
    replace (Z.to_nat (stats_nhits stats)) with O by lia.
    exact I.
Qed.

(** X16: When the statistics block announces [nhits > 0] hits, the sizes of
    the arrays fit in a [size_t], the allocator grants them, the table
    has an entry for each hit and the [nhits] records are deserialized
    one after the other from the end of the statistics block, the
    decoding returns the collection whose unsorted array is these
    records, whose pointers are the addresses of its cells in order,
    and whose count is [nhits]; the warnings are those of the entries
    of the table that differ from the positions of the records. *)
Theorem decoding_returns_the_records
    payload pli mode hits w cursor stats recs :
  p7_hmmd_search_stats_Deserialize payload 0 zeroed_stats
  = (eslOK, cursor, stats) ->
  0 < stats_nhits stats ->
  0 < sizeof_P7_HIT -> 0 < sizeof_pointer ->
  stats_nhits stats * sizeof_P7_HIT < 2 ^ 64 ->
  stats_nhits stats * sizeof_pointer < 2 ^ 64 ->
  heap_grants (size_t (stats_nhits stats * sizeof_P7_HIT)) = true ->
  heap_grants (size_t (stats_nhits stats * sizeof_pointer)) = true ->
  (Z.to_nat (stats_nhits stats) <= length (hit_offsets stats))%nat ->
  decode_records payload (uint32_t cursor)
    (resize (Z.to_nat (stats_nhits stats)) indeterminate_hit
       (unsrt (_th hits)))
  = inl recs ->
  decode_response payload pli mode hits w
  = (Return
       (mkTopHits (copy_stats_pli pli mode stats)
          (mkTh (map AddressOfUnsrt (seq 0 (Z.to_nat (stats_nhits stats))))
             recs (Nalloc (_th hits)) (stats_nhits stats)
             (stats_nreported stats) (stats_nincluded stats) true false)),
     warned_more w
       (mismatch_warnings 0 (uint32_t cursor)
          (cursors payload (uint32_t cursor)
             (resize (Z.to_nat (stats_nhits stats)) indeterminate_hit
                (unsrt (_th hits))))
          (hit_offsets stats))).
Proof.
  intros Hs Hpos Hsh Hsp Hh Hp Hg1 Hg2 Ht Hr.
  unfold decode_response. rewrite Hs, Z.eqb_refl. cbn [negb].
  unfold reallocate_hit_arrays.
  replace (0 <? stats_nhits stats) with true
    by (symmetry; apply Z.ltb_lt; exact Hpos).
  rewrite (realloc_granted _ _ _ _ Hg1), (realloc_granted _ _ _ _ Hg2).
  rewrite !cells_exact by nia.
  unfold bind at 1. cbn [ret]. unfold bind.
  rewrite deserialize_hits_spec
    by (cbn [unsrt hit with_hit with_unsrt]; rewrite ?resize_length; lia).
  cbn [unsrt hit with_hit with_unsrt copy_stats_th].
  rewrite !firstn_all2 by (rewrite resize_length; lia).
  rewrite !skipn_all2 by (rewrite resize_length; lia).
  rewrite Hr. cbn [loop_result app].
  rewrite !app_nil_r. reflexivity.
Qed.

(** X17: When every entry of the table of offsets is the position of its
    record, counted from the first record, the loop emits no warning. *)
Theorem consistent_table_no_warning
    n payload stats hits_start th cursor w :
  (n <= length (unsrt th))%nat ->
  (n <= length (hit th))%nat ->
  (n <= length (hit_offsets stats))%nat ->
  (forall j c expected,
      nth_error (cursors payload cursor (firstn n (unsrt th))) j = Some c ->
      nth_error (hit_offsets stats) j = Some expected ->
      expected = uint32_t (c - hits_start)) ->
  snd (deserialize_hits n 0 payload stats hits_start th cursor w) = w.
Proof.
  intros Hu Hp Ht Hall.
  rewrite deserialize_hits_spec by assumption. cbn [snd].
  assert (Hnone : forall positions table i,
             (forall j c expected,
                 nth_error positions j = Some c ->
                 nth_error table j = Some expected ->
                 expected = uint32_t (c - hits_start)) ->
             mismatch_warnings i hits_start positions table = []).
  { induction positions as [| c positions IH]; intros table i H;
      [reflexivity |].
    destruct table as [| expected table]; [reflexivity |].
    cbn [mismatch_warnings].
    rewrite (H O c expected eq_refl eq_refl), Z.eqb_refl.
    cbn [app]. apply IH. intros j c' e' Hc He.
    apply (H (S j)); assumption. }
  rewrite Hnone by exact Hall. apply warned_more_nil.
Qed.

Lemma mismatch_warnings_length hits_start positions : forall i table,
  (length (mismatch_warnings i hits_start positions table)
   <= length positions)%nat.
Proof.
  induction positions as [| c positions IH]; intros i table; [cbn; lia |].
  destruct table as [| expected table]; [cbn; lia |].
  cbn [mismatch_warnings]. rewrite length_app.
  specialize (IH (S i) table).
  destruct (uint32_t (c - hits_start) =? expected); cbn [length]; lia.
Qed.

(** X18: The loop emits at most one warning for each record, and keeps the
    warnings that were there. *)
Theorem at_most_one_warning_per_record
    n payload stats hits_start th cursor w :
  (n <= length (unsrt th))%nat ->
  (n <= length (hit th))%nat ->
  (n <= length (hit_offsets stats))%nat ->
  exists ms,
    warned (snd (deserialize_hits n 0 payload stats hits_start th cursor w))
    = warned w ++ ms
    /\ (length ms <= n)%nat.
Proof.
  intros Hu Hp Ht. rewrite deserialize_hits_spec by assumption.
  eexists. split; [reflexivity |].
  etransitivity; [apply mismatch_warnings_length |].
  etransitivity; [apply cursors_length |].
  rewrite length_firstn. lia.
Qed.

End Payload.

(** ** More on exact-length reads *)

Section MoreReads.

Context {lib : Collaborators}.

(** X19: What [_recvall] returns depends on the bytes the peer sends and not
    on the way the transport cuts them into fragments; the bytes left
    on the socket are the same too. *)
Theorem recvall_whatever_the_fragments n fs1 fs2 out ws :
  0 <= n < 2 ^ 64 ->
  stream fs1 = stream fs2 ->
  fst (_recvall n (mkWorld fs1 out ws)) = fst (_recvall n (mkWorld fs2 out ws))
  /\ stream (sock_in (snd (_recvall n (mkWorld fs1 out ws))))
     = stream (sock_in (snd (_recvall n (mkWorld fs2 out ws)))).
Proof.
  intros Hn Hs.
  destruct (Z.ltb_spec PY_SSIZE_T_MAX n) as [Ho | Ho].
  { rewrite !recvall_overflow by exact Ho. split; [reflexivity | exact Hs]. }
  destruct (buffer_grants n) eqn:Hg.
  2: { rewrite !recvall_refused by assumption.
       split; [reflexivity | exact Hs]. }
  rewrite !recvall_spec by (assumption || (split; assumption)). rewrite Hs.
  destruct (Z.to_nat n <=? length (stream fs2))%nat; cbn [fst snd sock_in].
  - split; [reflexivity |]. rewrite !stream_drain, Hs. reflexivity.
  - split; reflexivity.
Qed.

Lemma drain_drain fs : forall a b, drain b (drain a fs) = drain (a + b) fs.
Proof.
  induction fs as [| f rest IH]; intros a b.
  - destruct a; reflexivity.
  - destruct a as [| a]; [rewrite drain_0; reflexivity |].
    pose proof (frag_bytes_length f) as HL.
    cbn [drain Nat.eqb Nat.add].
    destruct (Nat.lt_ge_cases (S a) (length (frag_bytes f))) as [Hlt | Hge].
    + (* part of the fragment stays *)
      replace (S a - length (frag_bytes f))%nat with O by lia.
      rewrite drain_0.
      destruct (skipn (S a) (frag_bytes f)) as [| x more] eqn:Esk.
      { apply (f_equal (@length _)) in Esk. rewrite length_skipn in Esk.
        cbn in Esk. lia. }
      cbn [requeue].
      destruct b as [| b].
      * rewrite drain_0, Nat.add_0_r, Esk.
        replace (S a - length (frag_bytes f))%nat with O by lia.
        rewrite drain_0. reflexivity.
      * cbn [drain Nat.eqb].
        change (frag_bytes (Frag x more)) with (x :: more).
        rewrite <- Esk, skipn_skipn, length_skipn.
        replace (S b + S a)%nat with (S (a + S b)) by lia.
        replace (S b - (length (frag_bytes f) - S a))%nat
          with (S (a + S b) - length (frag_bytes f))%nat by lia.
        reflexivity.
    + (* the fragment is consumed *)
      rewrite skipn_all2 by lia. cbn [requeue].
      rewrite IH.
      rewrite (skipn_all2 (n := S (a + b))) by lia. cbn [requeue].
      f_equal. lia.
Qed.

(** X20: Two reads in a row take from the socket what one read of the sum of
    their sizes takes: when the bytes are there, the two buffers are
    the two parts of the buffer of the single read and the fragments
    left pending are the same.  (The three buffers are buffers the
    interpreter can make.) *)
Theorem recvall_twice a b fs out ws :
  0 <= a -> 0 <= b -> a + b < 2 ^ 64 ->
  allocatable a -> allocatable b -> allocatable (a + b) ->
  a + b <= Z.of_nat (length (stream fs)) ->
  bind (_recvall a)
    (fun first => bind (_recvall b) (fun second => ret (first ++ second)))
    (mkWorld fs out ws)
  = _recvall (a + b) (mkWorld fs out ws)
  /\ fst (_recvall a (mkWorld fs out ws))
     = Return (firstn (Z.to_nat a) (stream fs))
  /\ fst (_recvall b (snd (_recvall a (mkWorld fs out ws))))
     = Return (firstn (Z.to_nat b) (skipn (Z.to_nat a) (stream fs))).
Proof.
  intros Ha Hb Hab Ga Gb Gab Hlen.
  assert (E1 : _recvall a (mkWorld fs out ws)
               = (Return (firstn (Z.to_nat a) (stream fs)),
                  mkWorld (drain (Z.to_nat a) fs) out ws)).
  { rewrite recvall_spec by (assumption || lia).
    replace (Z.to_nat a <=? length (stream fs))%nat with true
      by (symmetry; apply Nat.leb_le; lia).
    reflexivity. }
  assert (E2 : _recvall b (mkWorld (drain (Z.to_nat a) fs) out ws)
               = (Return (firstn (Z.to_nat b) (skipn (Z.to_nat a) (stream fs))),
                  mkWorld (drain (Z.to_nat a + Z.to_nat b) fs) out ws)).
  { rewrite recvall_spec by (assumption || lia).
    rewrite stream_drain, length_skipn.
    replace (Z.to_nat b <=? length (stream fs) - Z.to_nat a)%nat with true
      by (symmetry; apply Nat.leb_le; lia).
    rewrite drain_drain. reflexivity. }
  split; [| split].
  - rewrite (bind_step _ _ _ _ _ E1), (bind_step _ _ _ _ _ E2).
    rewrite recvall_spec by (assumption || lia).
    replace (Z.to_nat (a + b) <=? length (stream fs))%nat with true
      by (symmetry; apply Nat.leb_le; lia).
    rewrite Z2Nat.inj_add by lia. unfold ret. f_equal. f_equal.
    rewrite <- (firstn_skipn (Z.to_nat a) (stream fs)) at 3.
    rewrite firstn_app, length_firstn.
    replace (Nat.min (Z.to_nat a) (length (stream fs))) with (Z.to_nat a) by lia.
    replace (Z.to_nat a + Z.to_nat b - Z.to_nat a)%nat with (Z.to_nat b) by lia.
    rewrite firstn_firstn.
    replace (Nat.min (Z.to_nat a + Z.to_nat b) (Z.to_nat a)) with (Z.to_nat a)
      by lia.
    reflexivity.
  - rewrite E1. reflexivity.
  - rewrite E1. cbn [snd]. rewrite E2. reflexivity.
Qed.

End MoreReads.

(** ** [__repr__] *)

(** X21: [__repr__] returns a text only for a client on the default port
    whose address is a [str]: the port, when it is not the default one,
    and the address, when it is [None], are put in the list that
    ["".join] is given, which raises [TypeError] on them. *)
Theorem repr_returns_iff ty self :
  (exists text, __repr__ ty self = Return text)
  <-> (address self <> None /\ port self = DEFAULT_PORT).
Proof.
  unfold __repr__. destruct self as [[s |] p]; cbn [address port].
  - destruct (Z.eqb_spec p DEFAULT_PORT) as [-> | Hp]; cbn [negb].
    + split; [intros _; split; [discriminate | reflexivity] |].
      intros _. cbn [address_differs address_arg].
      destruct (negb (s =? DEFAULT_ADDRESS)%string); cbn; eexists; reflexivity.
    + split; [| intros [_ H]; contradiction].
      intros [text H]. exfalso.
      cbn [address_differs address_arg] in H.
      destruct (negb (s =? DEFAULT_ADDRESS)%string); cbn in H; discriminate H.
  - split; [| intros [H _]; congruence].
    intros [text H]. exfalso. cbn [address_differs address_arg] in H.
    destruct (negb (p =? DEFAULT_PORT)); cbn in H; discriminate H.
Qed.

(** X22: When it returns, [__repr__] gives the module and the name of the
    class followed by the address between brackets, written as it is
    (without quotes), or by empty brackets for the default address. *)
Theorem repr_text ty self s :
  address self = Some s -> port self = DEFAULT_PORT ->
  __repr__ ty self
  = Return (type_module ty ++ "." ++ type_name ty ++ "("
            ++ (if (s =? DEFAULT_ADDRESS)%string then "" else s) ++ ")")%string.
Proof.
  intros Ha Hp. unfold __repr__. rewrite Ha, Hp, Z.eqb_refl.
  cbn [negb address_differs address_arg].
  destruct (s =? DEFAULT_ADDRESS)%string; cbn; [reflexivity |].
  replace (s ++ "")%string with s; [reflexivity |].
  clear. induction s as [| c s IH]; cbn; [reflexivity | rewrite <- IH; reflexivity].
Qed.

(** * More runs on the loopback server *)

(** The request of the exchanges goes out, whatever the server does. *)
Lemma loopback_request_goes_out w :
  request_goes_out Loopback.query 3 two_ranges Loopback.pipeline
    p7_SEARCH_SEQS w Loopback.line.
Proof.
  split; [reflexivity |]. split; [| reflexivity].
  exists Loopback.text. split; vm_compute; reflexivity.
Qed.

(** A range of one item beside a pair. *)
Lemma wrong_length_is_ValueError_witness :
  Exchanges.odd_ranges <> []
  /\ Exists (fun r : pytuple => length r <> 2%nat) Exchanges.odd_ranges
  /\ check_ranges (Some Exchanges.odd_ranges) Loopback.idle
     = (Raise (ValueError "`ranges` must be a list of two-element tuples"),
        Loopback.idle).
Proof.
  assert (H1 : Exchanges.odd_ranges <> []) by discriminate.
  assert (H2 : Exists (fun r : pytuple => length r <> 2%nat)
                 Exchanges.odd_ranges)
    by (apply Exists_cons_hd; discriminate).
  exact (conj H1 (conj H2
           (wrong_length_is_ValueError Exchanges.odd_ranges Loopback.idle
              H1 H2))).
Defined.

(** A pair whose second item is a text. *)
Lemma non_int_bound_is_TypeError_witness :
  Exchanges.text_ranges <> []
  /\ Forall (fun r : pytuple => length r = 2%nat) Exchanges.text_ranges
  /\ Exists (fun r : pytuple => exists x, In x r /\ isinstance_int x = false)
       Exchanges.text_ranges
  /\ check_ranges (Some Exchanges.text_ranges) Loopback.idle
     = (Raise (TypeError
                 "`ranges` must be a list where elements are 2-tuples of int"),
        Loopback.idle).
Proof.
  assert (H1 : Exchanges.text_ranges <> []) by discriminate.
  assert (H2 : Forall (fun r : pytuple => length r = 2%nat)
                 Exchanges.text_ranges)
    by (repeat constructor).
  assert (H3 : Exists (fun r : pytuple =>
                         exists x, In x r /\ isinstance_int x = false)
                 Exchanges.text_ranges).
  { apply Exists_cons_hd. exists (PyStr "x").
    split; [right; left; reflexivity | reflexivity]. }
  exact (conj H1 (conj H2 (conj H3
           (non_int_bound_is_TypeError Exchanges.text_ranges Loopback.idle
              H1 H2 H3)))).
Defined.


(** A pipeline with an accented letter among its arguments. *)
Lemma options_outside_ascii_raise_witness :
  check_ranges two_ranges Loopback.idle = (Return tt, Loopback.idle)
  /\ Exists beyond_ascii
       (characters (String.concat "" (arguments Exchanges.accented)))
  /\ @_client Loopback.server Loopback.query 3 two_ranges Exchanges.accented
       p7_SEARCH_SEQS Loopback.idle
     = (Raise UnicodeEncodeError, Loopback.idle).
Proof.
  assert (H1 : check_ranges two_ranges Loopback.idle
               = (Return tt, Loopback.idle)) by reflexivity.
  assert (H2 : Exists beyond_ascii
                 (characters (String.concat "" (arguments Exchanges.accented)))).
  { apply Exists_cons_hd. unfold beyond_ascii. cbn. lia. }
  exact (conj H1 (conj H2
           (@options_outside_ascii_raise Loopback.server Loopback.query 3
              two_ranges Exchanges.accented p7_SEARCH_SEQS Loopback.idle
              H1 H2))).
Defined.


(** The peer closes without an answer. *)
Lemma eof_before_status_header_witness :
  request_goes_out Loopback.query 3 two_ranges Loopback.pipeline
    p7_SEARCH_SEQS Loopback.idle Loopback.line
  /\ 0 <= @HMMD_SEARCH_STATUS_SERIAL_SIZE Loopback.server < 2 ^ 64
  /\ @allocatable Loopback.server
       (@HMMD_SEARCH_STATUS_SERIAL_SIZE Loopback.server)
  /\ Z.of_nat (length (stream (sock_in Loopback.idle)))
     < @HMMD_SEARCH_STATUS_SERIAL_SIZE Loopback.server
  /\ @_client Loopback.server Loopback.query 3 two_ranges Loopback.pipeline
       p7_SEARCH_SEQS Loopback.idle
     = (Raise (EOFError
                 (eof_message (@HMMD_SEARCH_STATUS_SERIAL_SIZE Loopback.server)
                    (Z.of_nat (length (stream (sock_in Loopback.idle)))))),
        mkWorld [] (sock_out Loopback.idle
                    ++ request_bytes Loopback.line Loopback.query)
          (warned Loopback.idle)).
Proof.
  assert (H2 : 0 <= @HMMD_SEARCH_STATUS_SERIAL_SIZE Loopback.server < 2 ^ 64)
    by (cbn; lia).
  assert (H3 : Z.of_nat (length (stream (sock_in Loopback.idle)))
               < @HMMD_SEARCH_STATUS_SERIAL_SIZE Loopback.server)
    by (cbn; lia).
  assert (Ha : @allocatable Loopback.server
                 (@HMMD_SEARCH_STATUS_SERIAL_SIZE Loopback.server))
    by (split; [vm_compute; discriminate | reflexivity]).
  exact (conj (loopback_request_goes_out Loopback.idle)
           (conj H2 (conj Ha (conj H3
           (@eof_before_status_header Loopback.server Loopback.query 3
              two_ranges Loopback.pipeline p7_SEARCH_SEQS Loopback.idle
              Loopback.line (loopback_request_goes_out Loopback.idle)
              H2 Ha H3))))).
Defined.

(** A status header the server of [Exchanges.picky] refuses. *)
Lemma unreadable_status_header_witness :
  request_goes_out Loopback.query 3 two_ranges Loopback.pipeline
    p7_SEARCH_SEQS Exchanges.garbled Loopback.line
  /\ 0 <= @HMMD_SEARCH_STATUS_SERIAL_SIZE Exchanges.picky < 2 ^ 64
  /\ @allocatable Exchanges.picky
       (@HMMD_SEARCH_STATUS_SERIAL_SIZE Exchanges.picky)
  /\ sock_in Exchanges.garbled
     = Loopback.fragment_of Exchanges.garbled_header ++ [Loopback.bad]
  /\ Z.of_nat (length (stream (Loopback.fragment_of Exchanges.garbled_header)))
     = @HMMD_SEARCH_STATUS_SERIAL_SIZE Exchanges.picky
  /\ @hmmd_search_status_Deserialize Exchanges.picky
       (stream (Loopback.fragment_of Exchanges.garbled_header)) 0
       zeroed_status
     = (7, 0, zeroed_status)
  /\ 7 <> @eslOK Exchanges.picky
  /\ @_client Exchanges.picky Loopback.query 3 two_ranges Loopback.pipeline
       p7_SEARCH_SEQS Exchanges.garbled
     = (Raise (UnexpectedError 7 "hmmd_search_status_Deserialize"),
        mkWorld [Loopback.bad]
          (sock_out Exchanges.garbled
           ++ request_bytes Loopback.line Loopback.query)
          (warned Exchanges.garbled)).
Proof.
  assert (H2 : 0 <= @HMMD_SEARCH_STATUS_SERIAL_SIZE Exchanges.picky < 2 ^ 64)
    by (cbn; lia).
  assert (H3 : sock_in Exchanges.garbled
               = Loopback.fragment_of Exchanges.garbled_header
                 ++ [Loopback.bad]) by reflexivity.
  assert (H4 : Z.of_nat (length (stream (Loopback.fragment_of
                                           Exchanges.garbled_header)))
               = @HMMD_SEARCH_STATUS_SERIAL_SIZE Exchanges.picky)
    by reflexivity.
  assert (H5 : @hmmd_search_status_Deserialize Exchanges.picky
                 (stream (Loopback.fragment_of Exchanges.garbled_header)) 0
                 zeroed_status
               = (7, 0, zeroed_status)) by (vm_compute; reflexivity).
  assert (H6 : 7 <> @eslOK Exchanges.picky) by (cbn; lia).
  assert (Ha : @allocatable Exchanges.picky
                 (@HMMD_SEARCH_STATUS_SERIAL_SIZE Exchanges.picky))
    by (split; [vm_compute; discriminate | reflexivity]).
  exact (conj (loopback_request_goes_out Exchanges.garbled)
           (conj H2 (conj Ha (conj H3 (conj H4 (conj H5 (conj H6
              (@unreadable_status_header Exchanges.picky Loopback.query 3
                 two_ranges Loopback.pipeline p7_SEARCH_SEQS
                 Exchanges.garbled Loopback.line
                 (Loopback.fragment_of Exchanges.garbled_header)
                 [Loopback.bad] 7 0 zeroed_status
                 (loopback_request_goes_out Exchanges.garbled)
                 H2 Ha H3 H4 H5 H6)))))))).
Defined.

(** The error 7 and its message of 11 bytes, in a fragment of 13. *)
Lemma error_message_in_one_fragment_witness :
  request_goes_out Loopback.query 3 two_ranges Loopback.pipeline
    p7_SEARCH_SEQS Exchanges.failing_whole Loopback.line
  /\ 0 <= @HMMD_SEARCH_STATUS_SERIAL_SIZE Loopback.server < 2 ^ 64
  /\ @allocatable Loopback.server
       (@HMMD_SEARCH_STATUS_SERIAL_SIZE Loopback.server)
  /\ sock_in Exchanges.failing_whole
     = Loopback.fragment_of (Loopback.header 7 11)
       ++ Exchanges.whole_message :: []
  /\ Z.of_nat (length (stream (Loopback.fragment_of (Loopback.header 7 11))))
     = @HMMD_SEARCH_STATUS_SERIAL_SIZE Loopback.server
  /\ @hmmd_search_status_Deserialize Loopback.server
       (stream (Loopback.fragment_of (Loopback.header 7 11))) 0 zeroed_status
     = (@eslOK Loopback.server, 12, mkStatus 7 11)
  /\ status (mkStatus 7 11) <> @eslOK Loopback.server
  /\ 0 <= msg_size (mkStatus 7 11)
     <= Z.of_nat (length (frag_bytes Exchanges.whole_message))
  /\ @allocatable Loopback.server (msg_size (mkStatus 7 11))
  /\ (@_client Loopback.server Loopback.query 3 two_ranges Loopback.pipeline
        p7_SEARCH_SEQS Exchanges.failing_whole
      = (Raise (ServerError (status (mkStatus 7 11))
                  (@decode_utf8_replace Loopback.server
                     (firstn (Z.to_nat (msg_size (mkStatus 7 11)))
                        (frag_bytes Exchanges.whole_message)))),
         mkWorld
           (requeue (skipn (Z.to_nat (msg_size (mkStatus 7 11)))
                       (frag_bytes Exchanges.whole_message)) [])
           (sock_out Exchanges.failing_whole
            ++ request_bytes Loopback.line Loopback.query)
           (warned Exchanges.failing_whole))
      /\ Z.of_nat (length (firstn (Z.to_nat (msg_size (mkStatus 7 11)))
                             (frag_bytes Exchanges.whole_message)))
         = msg_size (mkStatus 7 11)).
Proof.
  assert (H2 : 0 <= @HMMD_SEARCH_STATUS_SERIAL_SIZE Loopback.server < 2 ^ 64)
    by (cbn; lia).
  assert (H3 : sock_in Exchanges.failing_whole
               = Loopback.fragment_of (Loopback.header 7 11)
                 ++ Exchanges.whole_message :: []) by reflexivity.
  assert (H4 : Z.of_nat (length (stream (Loopback.fragment_of
                                           (Loopback.header 7 11))))
               = @HMMD_SEARCH_STATUS_SERIAL_SIZE Loopback.server)
    by reflexivity.
  assert (H5 : @hmmd_search_status_Deserialize Loopback.server
                 (stream (Loopback.fragment_of (Loopback.header 7 11))) 0
                 zeroed_status
               = (@eslOK Loopback.server, 12, mkStatus 7 11))
    by (vm_compute; reflexivity).
  assert (H6 : status (mkStatus 7 11) <> @eslOK Loopback.server)
    by (cbn; lia).
  assert (H7 : 0 <= msg_size (mkStatus 7 11)
               <= Z.of_nat (length (frag_bytes Exchanges.whole_message)))
    by (cbn; lia).
  assert (Ha : @allocatable Loopback.server
                 (@HMMD_SEARCH_STATUS_SERIAL_SIZE Loopback.server))
    by (split; [vm_compute; discriminate | reflexivity]).
  assert (Hb : @allocatable Loopback.server
                 (msg_size (mkStatus 7 11)))
    by (split; [vm_compute; discriminate | reflexivity]).
  exact (conj (loopback_request_goes_out Exchanges.failing_whole)
           (conj H2 (conj Ha (conj H3 (conj H4 (conj H5 (conj H6 (conj H7
           (conj Hb
              (@error_message_in_one_fragment Loopback.server Loopback.query
                 3 two_ranges Loopback.pipeline p7_SEARCH_SEQS
                 Exchanges.failing_whole Loopback.line
                 (Loopback.fragment_of (Loopback.header 7 11))
                 Exchanges.whole_message [] 12 (mkStatus 7 11)
                 (loopback_request_goes_out Exchanges.failing_whole)
                 H2 Ha H3 H4 H5 H6 H7 Hb)))))))))).
Defined.

(** The error 7 is announced with a message of 11 bytes, and the peer
    closes. *)
Lemma error_without_message_witness :
  request_goes_out Loopback.query 3 two_ranges Loopback.pipeline
    p7_SEARCH_SEQS (Exchanges.header_only 7 11) Loopback.line
  /\ 0 <= @HMMD_SEARCH_STATUS_SERIAL_SIZE Loopback.server < 2 ^ 64
  /\ @allocatable Loopback.server
       (@HMMD_SEARCH_STATUS_SERIAL_SIZE Loopback.server)
  /\ Z.of_nat (length (stream (sock_in (Exchanges.header_only 7 11))))
     = @HMMD_SEARCH_STATUS_SERIAL_SIZE Loopback.server
  /\ @hmmd_search_status_Deserialize Loopback.server
       (stream (sock_in (Exchanges.header_only 7 11))) 0 zeroed_status
     = (@eslOK Loopback.server, 12, mkStatus 7 11)
  /\ status (mkStatus 7 11) <> @eslOK Loopback.server
  /\ 0 <= msg_size (mkStatus 7 11)
  /\ @allocatable Loopback.server (msg_size (mkStatus 7 11))
  /\ @_client Loopback.server Loopback.query 3 two_ranges Loopback.pipeline
       p7_SEARCH_SEQS (Exchanges.header_only 7 11)
     = (Raise (ServerError (status (mkStatus 7 11))
                 (@decode_utf8_replace Loopback.server [])),
        mkWorld [] (sock_out (Exchanges.header_only 7 11)
                    ++ request_bytes Loopback.line Loopback.query)
          (warned (Exchanges.header_only 7 11))).
Proof.
  assert (H2 : 0 <= @HMMD_SEARCH_STATUS_SERIAL_SIZE Loopback.server < 2 ^ 64)
    by (cbn; lia).
  assert (H3 : Z.of_nat (length (stream (sock_in (Exchanges.header_only 7 11))))
               = @HMMD_SEARCH_STATUS_SERIAL_SIZE Loopback.server)
    by reflexivity.
  assert (H4 : @hmmd_search_status_Deserialize Loopback.server
                 (stream (sock_in (Exchanges.header_only 7 11))) 0
                 zeroed_status
               = (@eslOK Loopback.server, 12, mkStatus 7 11))
    by (vm_compute; reflexivity).
  assert (H5 : status (mkStatus 7 11) <> @eslOK Loopback.server)
    by (cbn; lia).
  assert (Ha : @allocatable Loopback.server
                 (@HMMD_SEARCH_STATUS_SERIAL_SIZE Loopback.server))
    by (split; [vm_compute; discriminate | reflexivity]).
  assert (H6 : 0 <= msg_size (mkStatus 7 11)) by (cbn; lia).
  assert (Hb : @allocatable Loopback.server
                 (msg_size (mkStatus 7 11)))
    by (split; [vm_compute; discriminate | reflexivity]).
  exact (conj (loopback_request_goes_out (Exchanges.header_only 7 11))
           (conj H2 (conj Ha (conj H3 (conj H4 (conj H5 (conj H6 (conj Hb
              (@error_without_message Loopback.server Loopback.query 3
                 two_ranges Loopback.pipeline p7_SEARCH_SEQS
                 (Exchanges.header_only 7 11) Loopback.line 12
                 (mkStatus 7 11)
                 (loopback_request_goes_out (Exchanges.header_only 7 11))
                 H2 Ha H3 H4 H5 H6 Hb))))))))).
Defined.

(** Five bytes of a payload of eight. *)
Lemma eof_in_payload_witness :
  request_goes_out Loopback.query 3 two_ranges Loopback.pipeline
    p7_SEARCH_SEQS Exchanges.cut_short Loopback.line
  /\ 0 <= @HMMD_SEARCH_STATUS_SERIAL_SIZE Loopback.server < 2 ^ 64
  /\ @allocatable Loopback.server
       (@HMMD_SEARCH_STATUS_SERIAL_SIZE Loopback.server)
  /\ sock_in Exchanges.cut_short
     = Loopback.fragment_of (Loopback.header 0 8)
       ++ Loopback.fragment_of (firstn 5 (Loopback.payload 3))
  /\ Z.of_nat (length (stream (Loopback.fragment_of (Loopback.header 0 8))))
     = @HMMD_SEARCH_STATUS_SERIAL_SIZE Loopback.server
  /\ @hmmd_search_status_Deserialize Loopback.server
       (stream (Loopback.fragment_of (Loopback.header 0 8))) 0 zeroed_status
     = (@eslOK Loopback.server, 12, mkStatus 0 8)
  /\ status (mkStatus 0 8) = @eslOK Loopback.server
  /\ 0 <= msg_size (mkStatus 0 8) < 2 ^ 64
  /\ @allocatable Loopback.server (msg_size (mkStatus 0 8))
  /\ Z.of_nat (length (stream (Loopback.fragment_of
                                 (firstn 5 (Loopback.payload 3)))))
     < msg_size (mkStatus 0 8)
  /\ @_client Loopback.server Loopback.query 3 two_ranges Loopback.pipeline
       p7_SEARCH_SEQS Exchanges.cut_short
     = (Raise (EOFError
                 (eof_message (msg_size (mkStatus 0 8))
                    (Z.of_nat (length (stream (Loopback.fragment_of
                                                 (firstn 5 (Loopback.payload 3)))))))),
        mkWorld [] (sock_out Exchanges.cut_short
                    ++ request_bytes Loopback.line Loopback.query)
          (warned Exchanges.cut_short)).
Proof.
  assert (H2 : 0 <= @HMMD_SEARCH_STATUS_SERIAL_SIZE Loopback.server < 2 ^ 64)
    by (cbn; lia).
  assert (H3 : sock_in Exchanges.cut_short
               = Loopback.fragment_of (Loopback.header 0 8)
                 ++ Loopback.fragment_of (firstn 5 (Loopback.payload 3)))
    by reflexivity.
  assert (H4 : Z.of_nat (length (stream (Loopback.fragment_of
                                           (Loopback.header 0 8))))
               = @HMMD_SEARCH_STATUS_SERIAL_SIZE Loopback.server)
    by reflexivity.
  assert (H5 : @hmmd_search_status_Deserialize Loopback.server
                 (stream (Loopback.fragment_of (Loopback.header 0 8))) 0
                 zeroed_status
               = (@eslOK Loopback.server, 12, mkStatus 0 8))
    by (vm_compute; reflexivity).
  assert (H6 : status (mkStatus 0 8) = @eslOK Loopback.server)
    by reflexivity.
  assert (H7 : 0 <= msg_size (mkStatus 0 8) < 2 ^ 64) by (cbn; lia).
  assert (H8 : Z.of_nat (length (stream (Loopback.fragment_of
                                           (firstn 5 (Loopback.payload 3)))))
               < msg_size (mkStatus 0 8)) by (cbn; lia).
  assert (Ha : @allocatable Loopback.server
                 (@HMMD_SEARCH_STATUS_SERIAL_SIZE Loopback.server))
    by (split; [vm_compute; discriminate | reflexivity]).
  assert (Hb : @allocatable Loopback.server
                 (msg_size (mkStatus 0 8)))
    by (split; [vm_compute; discriminate | reflexivity]).
  exact (conj (loopback_request_goes_out Exchanges.cut_short)
           (conj H2 (conj Ha (conj H3 (conj H4 (conj H5 (conj H6 (conj H7
           (conj Hb (conj H8
              (@eof_in_payload Loopback.server Loopback.query 3 two_ranges
                 Loopback.pipeline p7_SEARCH_SEQS Exchanges.cut_short
                 Loopback.line
                 (Loopback.fragment_of (Loopback.header 0 8))
                 (Loopback.fragment_of (firstn 5 (Loopback.payload 3)))
                 12 (mkStatus 0 8)
                 (loopback_request_goes_out Exchanges.cut_short)
                 H2 Ha H3 H4 H5 H6 H7 Hb H8))))))))))).
Defined.

(** A statistics block that announces no hit. *)
Lemma no_hit_no_array_witness :
  @p7_hmmd_search_stats_Deserialize Loopback.server Exchanges.no_hit 0
    zeroed_stats
  = (@eslOK Loopback.server, 1, Exchanges.zero_hits)
  /\ stats_nhits Exchanges.zero_hits = 0
  /\ @decode_response Loopback.server Exchanges.no_hit Loopback.pipeline
       p7_SCAN_MODELS Loopback.empty_hits Loopback.idle
     = (Return (mkTopHits
                  (copy_stats_pli Loopback.pipeline p7_SCAN_MODELS
                     Exchanges.zero_hits)
                  (copy_stats_th (_th Loopback.empty_hits)
                     Exchanges.zero_hits)),
        Loopback.idle)
  /\ unsrt (copy_stats_th (_th Loopback.empty_hits) Exchanges.zero_hits)
     = unsrt (_th Loopback.empty_hits)
  /\ hit (copy_stats_th (_th Loopback.empty_hits) Exchanges.zero_hits)
     = hit (_th Loopback.empty_hits)
  /\ N (copy_stats_th (_th Loopback.empty_hits) Exchanges.zero_hits) = 0
  /\ sorted_view (copy_stats_th (_th Loopback.empty_hits) Exchanges.zero_hits)
     = [].
Proof.
  assert (H1 : @p7_hmmd_search_stats_Deserialize Loopback.server
                 Exchanges.no_hit 0 zeroed_stats
               = (@eslOK Loopback.server, 1, Exchanges.zero_hits))
    by (vm_compute; reflexivity).
  assert (H2 : stats_nhits Exchanges.zero_hits = 0) by reflexivity.
  exact (conj H1 (conj H2
           (@no_hit_no_array Loopback.server Exchanges.no_hit
              Loopback.pipeline p7_SCAN_MODELS Loopback.empty_hits
              Loopback.idle 1 Exchanges.zero_hits H1 H2))).
Defined.


(** The exchange with two hits: the capacity of the collection. *)
Lemma returned_collection_keeps_Nalloc_witness :
  @_client Loopback.server Loopback.query 3 two_ranges Loopback.pipeline
    p7_SEARCH_SEQS (Loopback.answering 3)
  = (Return Loopback.collected, Loopback.afterwards)
  /\ Nalloc (_th Loopback.collected)
     = Nalloc (_th (@TopHits_new Loopback.server))
  /\ (Z.to_nat (N (_th Loopback.collected))
      <= length (unsrt (_th Loopback.collected)))%nat
  /\ (Z.to_nat (N (_th Loopback.collected))
      <= length (hit (_th Loopback.collected)))%nat.
Proof.
  assert (H : @_client Loopback.server Loopback.query 3 two_ranges
                Loopback.pipeline p7_SEARCH_SEQS (Loopback.answering 3)
              = (Return Loopback.collected, Loopback.afterwards))
    by (vm_compute; reflexivity).
  exact (conj H
           (@returned_collection_keeps_Nalloc Loopback.server
              Loopback.query 3 two_ranges Loopback.pipeline p7_SEARCH_SEQS
              (Loopback.answering 3) Loopback.collected Loopback.afterwards
              H)).
Defined.

(** The payload with two hits, decoded in arrays of 152 and 8 bytes a
    cell. *)
Lemma decoding_stays_in_bounds_witness :
  @p7_hmmd_search_stats_Deserialize Loopback.server (Loopback.payload 3) 0
    zeroed_stats
  = (0, 3, Exchanges.two_hits)
  /\ 0 < @sizeof_P7_HIT Loopback.server
  /\ 0 < @sizeof_pointer Loopback.server
  /\ stats_nhits Exchanges.two_hits * @sizeof_P7_HIT Loopback.server < 2 ^ 64
  /\ stats_nhits Exchanges.two_hits * @sizeof_pointer Loopback.server < 2 ^ 64
  /\ (Z.to_nat (stats_nhits Exchanges.two_hits)
      <= length (hit_offsets Exchanges.two_hits))%nat
  /\ defined
       (fst (@decode_response Loopback.server (Loopback.payload 3)
               Loopback.pipeline p7_SEARCH_SEQS Loopback.empty_hits
               Loopback.idle)).
Proof.
  assert (H1 : @p7_hmmd_search_stats_Deserialize Loopback.server
                 (Loopback.payload 3) 0 zeroed_stats
               = (0, 3, Exchanges.two_hits)) by (vm_compute; reflexivity).
  assert (H2 : 0 < @sizeof_P7_HIT Loopback.server) by (cbn; lia).
  assert (H3 : 0 < @sizeof_pointer Loopback.server) by (cbn; lia).
  assert (H4 : stats_nhits Exchanges.two_hits * @sizeof_P7_HIT Loopback.server
               < 2 ^ 64) by (cbn; lia).
  assert (H5 : stats_nhits Exchanges.two_hits
               * @sizeof_pointer Loopback.server < 2 ^ 64) by (cbn; lia).
  assert (H6 : (Z.to_nat (stats_nhits Exchanges.two_hits)
                <= length (hit_offsets Exchanges.two_hits))%nat)
    by (cbn; lia).
  exact (conj H1 (conj H2 (conj H3 (conj H4 (conj H5 (conj H6
           (@decoding_stays_in_bounds Loopback.server (Loopback.payload 3)
              Loopback.pipeline p7_SEARCH_SEQS Loopback.empty_hits
              Loopback.idle 0 3 Exchanges.two_hits
              H1 H2 H3 H4 H5 H6))))))).
Defined.

(** The payload with two hits: the collection it gives. *)
Lemma decoding_returns_the_records_witness :
  @p7_hmmd_search_stats_Deserialize Loopback.server (Loopback.payload 3) 0
    zeroed_stats
  = (@eslOK Loopback.server, 3, Exchanges.two_hits)
  /\ 0 < stats_nhits Exchanges.two_hits
  /\ 0 < @sizeof_P7_HIT Loopback.server
  /\ 0 < @sizeof_pointer Loopback.server
  /\ stats_nhits Exchanges.two_hits * @sizeof_P7_HIT Loopback.server < 2 ^ 64
  /\ stats_nhits Exchanges.two_hits * @sizeof_pointer Loopback.server < 2 ^ 64
  /\ @heap_grants Loopback.server
       (size_t (stats_nhits Exchanges.two_hits
                * @sizeof_P7_HIT Loopback.server)) = true
  /\ @heap_grants Loopback.server
       (size_t (stats_nhits Exchanges.two_hits
                * @sizeof_pointer Loopback.server)) = true
  /\ (Z.to_nat (stats_nhits Exchanges.two_hits)
      <= length (hit_offsets Exchanges.two_hits))%nat
  /\ @decode_records Loopback.server (Loopback.payload 3) (uint32_t 3)
       (resize (Z.to_nat (stats_nhits Exchanges.two_hits))
          (@indeterminate_hit Loopback.server)
          (unsrt (_th Loopback.empty_hits)))
     = inl (unsrt (_th Loopback.collected))
  /\ @decode_response Loopback.server (Loopback.payload 3) Loopback.pipeline
       p7_SEARCH_SEQS Loopback.empty_hits Loopback.idle
     = (Return
          (mkTopHits
             (copy_stats_pli Loopback.pipeline p7_SEARCH_SEQS
                Exchanges.two_hits)
             (mkTh
                (map AddressOfUnsrt
                   (seq 0 (Z.to_nat (stats_nhits Exchanges.two_hits))))
                (unsrt (_th Loopback.collected))
                (Nalloc (_th Loopback.empty_hits))
                (stats_nhits Exchanges.two_hits)
                (stats_nreported Exchanges.two_hits)
                (stats_nincluded Exchanges.two_hits) true false)),
        warned_more Loopback.idle
          (mismatch_warnings 0 (uint32_t 3)
             (@cursors Loopback.server (Loopback.payload 3) (uint32_t 3)
                (resize (Z.to_nat (stats_nhits Exchanges.two_hits))
                   (@indeterminate_hit Loopback.server)
                   (unsrt (_th Loopback.empty_hits))))
             (hit_offsets Exchanges.two_hits))).
Proof.
  assert (H1 : @p7_hmmd_search_stats_Deserialize Loopback.server
                 (Loopback.payload 3) 0 zeroed_stats
               = (@eslOK Loopback.server, 3, Exchanges.two_hits))
    by (vm_compute; reflexivity).
  assert (H0 : 0 < stats_nhits Exchanges.two_hits) by (cbn; lia).
  assert (H2 : 0 < @sizeof_P7_HIT Loopback.server) by (cbn; lia).
  assert (H3 : 0 < @sizeof_pointer Loopback.server) by (cbn; lia).
  assert (H4 : stats_nhits Exchanges.two_hits * @sizeof_P7_HIT Loopback.server
               < 2 ^ 64) by (cbn; lia).
  assert (H5 : stats_nhits Exchanges.two_hits
               * @sizeof_pointer Loopback.server < 2 ^ 64) by (cbn; lia).
  assert (H6 : @heap_grants Loopback.server
                 (size_t (stats_nhits Exchanges.two_hits
                          * @sizeof_P7_HIT Loopback.server)) = true)
    by (vm_compute; reflexivity).
  assert (H7 : @heap_grants Loopback.server
                 (size_t (stats_nhits Exchanges.two_hits
                          * @sizeof_pointer Loopback.server)) = true)
    by (vm_compute; reflexivity).
  assert (H8 : (Z.to_nat (stats_nhits Exchanges.two_hits)
                <= length (hit_offsets Exchanges.two_hits))%nat)
    by (cbn; lia).
  assert (H9 : @decode_records Loopback.server (Loopback.payload 3)
                 (uint32_t 3)
                 (resize (Z.to_nat (stats_nhits Exchanges.two_hits))
                    (@indeterminate_hit Loopback.server)
                    (unsrt (_th Loopback.empty_hits)))
               = inl (unsrt (_th Loopback.collected)))
    by (vm_compute; reflexivity).
  exact (conj H1 (conj H0 (conj H2 (conj H3 (conj H4 (conj H5 (conj H6
          (conj H7 (conj H8 (conj H9
           (@decoding_returns_the_records Loopback.server
              (Loopback.payload 3) Loopback.pipeline p7_SEARCH_SEQS
              Loopback.empty_hits Loopback.idle 3 Exchanges.two_hits
              (unsrt (_th Loopback.collected))
              H1 H0 H2 H3 H4 H5 H6 H7 H8 H9))))))))))).
Defined.

(** The loop over the two hits, with the table of their positions. *)
Lemma consistent_table_no_warning_witness :
  (2 <= length (unsrt Loopback.room))%nat
  /\ (2 <= length (hit Loopback.room))%nat
  /\ (2 <= length (hit_offsets Exchanges.two_hits))%nat
  /\ (forall j c expected,
      nth_error (@cursors Loopback.server (Loopback.payload 3) 3
                   (firstn 2 (unsrt Loopback.room))) j = Some c ->
      nth_error (hit_offsets Exchanges.two_hits) j = Some expected ->
      expected = uint32_t (c - 3))
  /\ snd (@deserialize_hits Loopback.server 2 0 (Loopback.payload 3)
            Exchanges.two_hits 3 Loopback.room 3 Loopback.idle)
     = Loopback.idle.
Proof.
  assert (H2 : (2 <= 2)%nat) by lia.
  assert (H4 : forall j c expected,
             nth_error (@cursors Loopback.server (Loopback.payload 3) 3
                          (firstn 2 (unsrt Loopback.room))) j = Some c ->
             nth_error (hit_offsets Exchanges.two_hits) j = Some expected ->
             expected = uint32_t (c - 3)).
  { intros j c expected Hc He.
    destruct j as [| [| j]]; vm_compute in Hc, He.
    - injection Hc as <-. injection He as <-. reflexivity.
    - injection Hc as <-. injection He as <-. reflexivity.
    - destruct j; discriminate Hc. }
  exact (conj H2 (conj H2 (conj H2 (conj H4
           (@consistent_table_no_warning Loopback.server 2
              (Loopback.payload 3) Exchanges.two_hits 3 Loopback.room 3
              Loopback.idle H2 H2 H2 H4))))).
Defined.

(** The loop over the two hits, with a table whose entries are both
    wrong. *)
Lemma at_most_one_warning_per_record_witness :
  (2 <= length (unsrt Loopback.room))%nat
  /\ (2 <= length (hit Loopback.room))%nat
  /\ (2 <= length (hit_offsets (Loopback.stats_with [5; 9]%Z)))%nat
  /\ exists ms,
      warned
        (snd (@deserialize_hits Loopback.server 2 0 (Loopback.payload 9)
                (Loopback.stats_with [5; 9]%Z) 3 Loopback.room 3
                Loopback.idle))
      = warned Loopback.idle ++ ms
      /\ (length ms <= 2)%nat.
Proof.
  assert (H2 : (2 <= 2)%nat) by lia.
  exact (conj H2 (conj H2 (conj H2
           (@at_most_one_warning_per_record Loopback.server 2
              (Loopback.payload 9) (Loopback.stats_with [5; 9]%Z) 3
              Loopback.room 3 Loopback.idle H2 H2 H2)))).
Defined.

(** The same six bytes in three fragments and in two. *)
Lemma recvall_whatever_the_fragments_witness :
  0 <= 4 < 2 ^ 64
  /\ stream Loopback.three_fragments = stream Exchanges.two_fragments
  /\ fst (@_recvall Loopback.server 4 (mkWorld Loopback.three_fragments [] []))
     = fst (@_recvall Loopback.server 4 (mkWorld Exchanges.two_fragments [] []))
  /\ stream (sock_in (snd (@_recvall Loopback.server 4 (mkWorld Loopback.three_fragments [] []))))
     = stream (sock_in (snd (@_recvall Loopback.server 4 (mkWorld Exchanges.two_fragments [] [])))).
Proof.
  assert (H1 : 0 <= 4 < 2 ^ 64) by lia.
  assert (H2 : stream Loopback.three_fragments = stream Exchanges.two_fragments)
    by reflexivity.
  exact (conj H1 (conj H2
           (@recvall_whatever_the_fragments Loopback.server 4
              Loopback.three_fragments Exchanges.two_fragments [] []
              H1 H2))).
Defined.

(** Two bytes, then three, out of six. *)
Lemma recvall_twice_witness :
  0 <= 2 /\ 0 <= 3 /\ 2 + 3 < 2 ^ 64
  /\ @allocatable Loopback.server 2
  /\ @allocatable Loopback.server 3
  /\ @allocatable Loopback.server (2 + 3)
  /\ 2 + 3 <= Z.of_nat (length (stream Loopback.three_fragments))
  /\ bind (@_recvall Loopback.server 2)
       (fun first => bind (@_recvall Loopback.server 3) (fun second => ret (first ++ second)))
       (mkWorld Loopback.three_fragments [] [])
     = @_recvall Loopback.server (2 + 3) (mkWorld Loopback.three_fragments [] [])
  /\ fst (@_recvall Loopback.server 2 (mkWorld Loopback.three_fragments [] []))
     = Return (firstn (Z.to_nat 2) (stream Loopback.three_fragments))
  /\ fst (@_recvall Loopback.server 3 (snd (@_recvall Loopback.server 2 (mkWorld Loopback.three_fragments [] []))))
     = Return (firstn (Z.to_nat 3)
                 (skipn (Z.to_nat 2) (stream Loopback.three_fragments))).
Proof.
  assert (H1 : 0 <= 2) by lia.
  assert (H2 : 0 <= 3) by lia.
  assert (H3 : 2 + 3 < 2 ^ 64) by lia.
  assert (H4 : 2 + 3 <= Z.of_nat (length (stream Loopback.three_fragments)))
    by (cbn; lia).
  assert (Ga : @allocatable Loopback.server
                 (2))
    by (split; [vm_compute; discriminate | reflexivity]).
  assert (Gb : @allocatable Loopback.server
                 (3))
    by (split; [vm_compute; discriminate | reflexivity]).
  assert (Gab : @allocatable Loopback.server
                 (2 + 3))
    by (split; [vm_compute; discriminate | reflexivity]).
  exact (conj H1 (conj H2 (conj H3 (conj Ga (conj Gb (conj Gab (conj H4
           (@recvall_twice Loopback.server 2 3 Loopback.three_fragments
              [] [] H1 H2 H3 Ga Gb Gab H4)))))))).
Defined.

(** A client at another address, on the default port. *)
Lemma repr_text_witness :
  address Exchanges.remote = Some "10.0.0.1"%string
  /\ port Exchanges.remote = DEFAULT_PORT
  /\ __repr__ Client_type Exchanges.remote
     = Return (type_module Client_type ++ "." ++ type_name Client_type ++ "("
               ++ (if ("10.0.0.1" =? DEFAULT_ADDRESS)%string
                   then "" else "10.0.0.1")
               ++ ")")%string.
Proof.
  exact (conj eq_refl (conj eq_refl
           (repr_text Client_type Exchanges.remote "10.0.0.1"
              eq_refl eq_refl))).
Defined.

(** The server announces a payload of 2^63 bytes. *)
Lemma oversized_announcement_witness :
  request_goes_out Loopback.query 3 two_ranges Loopback.pipeline
    p7_SEARCH_SEQS Exchanges.oversized Loopback.line
  /\ 0 <= @HMMD_SEARCH_STATUS_SERIAL_SIZE Loopback.server < 2 ^ 64
  /\ @allocatable Loopback.server
       (@HMMD_SEARCH_STATUS_SERIAL_SIZE Loopback.server)
  /\ sock_in Exchanges.oversized
     = Loopback.fragment_of Exchanges.oversized_header ++ [Loopback.bad]
  /\ Z.of_nat (length (stream (Loopback.fragment_of
                                 Exchanges.oversized_header)))
     = @HMMD_SEARCH_STATUS_SERIAL_SIZE Loopback.server
  /\ @hmmd_search_status_Deserialize Loopback.server
       (stream (Loopback.fragment_of Exchanges.oversized_header)) 0
       zeroed_status
     = (@eslOK Loopback.server, 12, mkStatus 0 (2 ^ 63))
  /\ PY_SSIZE_T_MAX < msg_size (mkStatus 0 (2 ^ 63))
  /\ @_client Loopback.server Loopback.query 3 two_ranges Loopback.pipeline
       p7_SEARCH_SEQS Exchanges.oversized
     = (Raise OverflowError,
        mkWorld [Loopback.bad]
          (sock_out Exchanges.oversized
           ++ request_bytes Loopback.line Loopback.query)
          (warned Exchanges.oversized)).
Proof.
  assert (H2 : 0 <= @HMMD_SEARCH_STATUS_SERIAL_SIZE Loopback.server < 2 ^ 64)
    by (cbn; lia).
  assert (Ha : @allocatable Loopback.server
                 (@HMMD_SEARCH_STATUS_SERIAL_SIZE Loopback.server))
    by (split; [vm_compute; discriminate | reflexivity]).
  assert (H3 : sock_in Exchanges.oversized
               = Loopback.fragment_of Exchanges.oversized_header
                 ++ [Loopback.bad]) by reflexivity.
  assert (H4 : Z.of_nat (length (stream (Loopback.fragment_of
                                           Exchanges.oversized_header)))
               = @HMMD_SEARCH_STATUS_SERIAL_SIZE Loopback.server)
    by reflexivity.
  assert (H5 : @hmmd_search_status_Deserialize Loopback.server
                 (stream (Loopback.fragment_of Exchanges.oversized_header)) 0
                 zeroed_status
               = (@eslOK Loopback.server, 12, mkStatus 0 (2 ^ 63)))
    by (vm_compute; reflexivity).
  assert (H6 : PY_SSIZE_T_MAX < msg_size (mkStatus 0 (2 ^ 63)))
    by (vm_compute; reflexivity).
  exact (conj (loopback_request_goes_out Exchanges.oversized)
           (conj H2 (conj Ha (conj H3 (conj H4 (conj H5 (conj H6
              (@oversized_announcement Loopback.server Loopback.query 3
                 two_ranges Loopback.pipeline p7_SEARCH_SEQS
                 Exchanges.oversized Loopback.line
                 (Loopback.fragment_of Exchanges.oversized_header)
                 [Loopback.bad] 12 (mkStatus 0 (2 ^ 63))
                 (loopback_request_goes_out Exchanges.oversized)
                 H2 Ha H3 H4 H5 H6)))))))).
Defined.


(** A search in the database -1. *)
Lemma db_outside_uint64_t_witness :
  (-1 < 0 \/ 2 ^ 64 <= -1)
  /\ @search_seq Loopback.server Loopback.query (-1) two_ranges []
       (Loopback.answering 3)
     = (Raise OverflowError, Loopback.answering 3)
  /\ @search_msa Loopback.server Loopback.query (-1) two_ranges []
       (Loopback.answering 3)
     = (Raise OverflowError, Loopback.answering 3)
  /\ @search_hmm Loopback.server Loopback.query (-1) two_ranges []
       (Loopback.answering 3)
     = (Raise OverflowError, Loopback.answering 3)
  /\ @scan_seq Loopback.server Loopback.query (-1) [] (Loopback.answering 3)
     = (Raise OverflowError, Loopback.answering 3).
Proof.
  assert (H : -1 < 0 \/ 2 ^ 64 <= -1) by (left; lia).
  exact (conj H
           (@db_outside_uint64_t Loopback.server Loopback.query (-1)
              two_ranges [] (Loopback.answering 3) H)).
Defined.
